(** * Terraform provider for Octopus Deploy: resource handlers

    A shallow embedding of three resource adapters of the provider
    (deployment process, project deployment-target trigger, lifecycle)
    and the properties their CRUD handlers satisfy.

    Layout: the embedding comes first (Go library functions the handlers
    call, the handler monad, one module per resource, concrete remotes
    used to run the handlers), the theorems follow. *)

From Stdlib Require Import ZArith Ascii String Bool Lia.
From stdpp Require Import gmap strings list fin_maps.

Set Warnings "-register-all".
Local Open Scope string_scope.

(* ===================================================================== *)
(** * Go standard library: [regexp] and [strings]                        *)
(* ===================================================================== *)

Module GoRegexp.

(** The two patterns compiled by the handlers ([Projects-\d+] and
    [\d+-\w+]) are sequences of single-character items, each taken once
    or one-or-more times.  A compiled pattern is the list of its items. *)

Inductive quantifier := One | Plus.

Record item := Item { accepts : ascii -> bool; quant : quantifier }.

Definition regexp := list item.

(** [\d] is [0-9] and [\w] is [0-9A-Za-z_] (RE2 syntax, ASCII only). *)
Definition between (lo hi : N) (c : ascii) : bool :=
  ((lo <=? N_of_ascii c) && (N_of_ascii c <=? hi))%N.

Definition is_digit (c : ascii) : bool := between 48 57 c.

Definition is_word (c : ascii) : bool :=
  is_digit c || between 65 90 c || between 97 122 c || Ascii.eqb c "_".

Definition lit (c : ascii) : item := Item (Ascii.eqb c) One.

Fixpoint literal (s : string) : regexp :=
  match s with
  | EmptyString => []
  | String c s' => lit c :: literal s'
  end.

(** Match at the start of the input.  [x+] is greedy: it first tries to
    take one more character and only then yields to the rest of the
    pattern, which is the match a leftmost-first engine reports. *)
Fixpoint match_here (re : regexp) : string -> option string :=
  match re with
  | [] => fun _ => Some EmptyString
  | Item cls One :: re' => fun s =>
      match s with
      | String c s' => if cls c then String c <$> match_here re' s' else None
      | EmptyString => None
      end
  | Item cls Plus :: re' =>
      fix more (s : string) : option string :=
        match s with
        | String c s' =>
            if cls c then
              match more s' with
              | Some m => Some (String c m)
              | None => String c <$> match_here re' s'
              end
            else None
        | EmptyString => None
        end
  end.

(** [Regexp.FindString]: the text of the leftmost match, or the empty
    string when there is none. *)
Fixpoint FindString (re : regexp) (s : string) : string :=
  match match_here re s with
  | Some m => m
  | None =>
      match s with
      | EmptyString => EmptyString
      | String _ s' => FindString re s'
      end
  end.

(** The items of a pattern that can consume the byte [sep]. *)
Definition consumers (sep : ascii) (re : list item) : list item :=
  filter (fun it => accepts it sep = true) re.

(** No repeated item consumes [sep]. *)
Definition bounded (sep : ascii) (re : regexp) : Prop :=
  Forall (fun it => quant it = Plus -> accepts it sep = false) re.

End GoRegexp.

Module GoStrings.

(** [strings.SplitAfter s sep] for a one-byte separator: the pieces of
    [s] after each occurrence of [sep], the separator kept at the end of
    its piece.  The result always has one more element than [s] has
    separators. *)
Fixpoint SplitAfter (s : string) (sep : ascii) : list string :=
  match s with
  | EmptyString => [EmptyString]
  | String c s' =>
      let rest := SplitAfter s' sep in
      if Ascii.eqb c sep then String c EmptyString :: rest
      else match rest with
           | p :: ps => String c p :: ps
           | [] => [String c EmptyString]
           end
  end.

(** Occurrences of a byte in a string ([strings.Count] for one byte). *)
Fixpoint Count (s : string) (sep : ascii) : nat :=
  match s with
  | EmptyString => 0
  | String c s' => (if Ascii.eqb c sep then 1 else 0) + Count s' sep
  end.

(** [strings.Join]. *)
Fixpoint Join (elems : list string) (sep : string) : string :=
  match elems with
  | [] => EmptyString
  | [e] => e
  | e :: es => e ++ sep ++ Join es sep
  end.

(** [strings.Contains], as a proposition. *)
Definition Contains (s substr : string) : Prop :=
  exists pre post, s = pre ++ substr ++ post.

End GoStrings.

(* ===================================================================== *)
(** * Client library data ([go-octopusdeploy])                           *)
(* ===================================================================== *)

(** A Go [error] is represented by its message ([err.Error()]); a Go
    result pair [(v, err)] by [Ok v] or [Err e]. *)
Definition error := string.

Inductive result (A : Type) :=
| Ok (a : A)
| Err (e : error).
Arguments Ok {A} a.
Arguments Err {A} e.

(** Conversion [int32(x)] of a Go [int]: two's-complement wrap-around. *)
Definition int32 (x : Z) : Z := ((x + 2 ^ 31) mod 2 ^ 32 - 2 ^ 31)%Z.

(** [octopusdeploy.RetentionPeriod]. *)
Record RetentionPeriod := {
  QuantityToKeep : Z;
  ShouldKeepForever : bool;
  Unit : string
}.

(* ===================================================================== *)
(** * Terraform plugin SDK: [schema.ResourceData] and [diag]             *)
(* ===================================================================== *)

Module Terraform.

(** Go values of type [interface{}] that the handlers read from and
    write to a [ResourceData]. *)
Inductive value :=
| VNil
| VString (s : string)
| VInt (z : Z)
| VInt32 (z : Z)
| VBool (b : bool)
| VStrings (l : list string)
| VList (l : list value)
| VMap (m : gmap string value)
| VRetentionPeriodPtr (r : option RetentionPeriod).

(** Type assertions [v.(T)]; [None] stands for the run-time panic of a
    failed assertion. *)
Definition as_string (v : value) : option string :=
  match v with VString s => Some s | _ => None end.
Definition as_int (v : value) : option Z :=
  match v with VInt z => Some z | _ => None end.
Definition as_bool (v : value) : option bool :=
  match v with VBool b => Some b | _ => None end.
Definition as_list (v : value) : option (list value) :=
  match v with VList l => Some l | _ => None end.
Definition as_map (v : value) : option (gmap string value) :=
  match v with VMap m => Some m | _ => None end.

(** Indexing a Go map: the zero value [nil] for a missing key. *)
Definition index (m : gmap string value) (k : string) : value :=
  default VNil (m !! k).

(** The values [GetOk] reports as unset. *)
Definition is_zero (v : value) : bool :=
  match v with
  | VNil => true
  | VString s => String.eqb s EmptyString
  | VInt z | VInt32 z => Z.eqb z 0
  | VBool b => negb b
  | VStrings l => match l with [] => true | _ => false end
  | VList l => match l with [] => true | _ => false end
  | VMap _ | VRetentionPeriodPtr _ => false
  end.

(** [schema.ResourceData]: the resource identifier and the attributes.
    Every attribute of the schema holds a value of its type (an unset
    attribute holds the zero value), so [Get] is a lookup. *)
Record ResourceData := {
  rd_id : string;
  rd_attrs : gmap string value
}.

Definition Id (d : ResourceData) : string := rd_id d.

Definition SetId (v : string) (d : ResourceData) : ResourceData :=
  {| rd_id := v; rd_attrs := rd_attrs d |}.

Definition Get (d : ResourceData) (key : string) : value :=
  index (rd_attrs d) key.

Definition GetOk (d : ResourceData) (key : string) : value * bool :=
  let v := Get d key in (v, negb (is_zero v)).

(** [d.Set(key, v)] for a value the schema of the attribute accepts: the
    write succeeds and [v] is what the attribute then reads as.  The
    handlers discard the error [Set] returns for any other value (such
    as a phase map that holds a non-nil retention pointer where the
    schema has a list); what the attribute holds after such a write is
    not described here, and no property below rests on one. *)
Definition Set_ (key : string) (v : value) (d : ResourceData) : ResourceData :=
  {| rd_id := rd_id d; rd_attrs := <[key := v]> (rd_attrs d) |}.

(** ** Diagnostics *)

Inductive Severity := Error | Warning.

Record Diagnostic := {
  severity : Severity;
  Summary : string;
  Detail : string
}.

(** [diag.Diagnostics]; [nil] is the empty list. *)
Definition Diagnostics := list Diagnostic.

Definition FromErr (err : error) : Diagnostics :=
  [{| severity := Error; Summary := err; Detail := EmptyString |}].

Definition Errorf (msg : string) : Diagnostics :=
  [{| severity := Error; Summary := msg; Detail := EmptyString |}].

End Terraform.

(* ===================================================================== *)
(** * The handler monad                                                  *)
(* ===================================================================== *)

(** A handler runs against its [ResourceData] and the remote server.  The
    server is a state [R] on which every client method acts; every method
    invoked is recorded, in order, in [calls].  A computation yields a
    value, leaves the handler early with its diagnostics ([Return]), or
    panics. *)

Module Handler.
Import Terraform.

Section Monad.
Context {C R : Type}.

Record World := {
  remote : R;
  calls : list C
}.

Record State := {
  data : ResourceData;
  world : World
}.

Inductive Outcome (A : Type) :=
| Value (a : A)
| Return (ds : Diagnostics)
| Panic.

Definition M (A : Type) : Type := State -> Outcome A * State.

Definition ret {A} (a : A) : M A := fun s => (Value A a, s).

Definition bind {A B} (c : M A) (k : A -> M B) : M B :=
  fun s =>
    match c s with
    | (Value _ a, s') => k a s'
    | (Return _ ds, s') => (Return B ds, s')
    | (Panic _, s') => (Panic B, s')
    end.

(** [return ds] in the middle of a handler. *)
Definition return_ {A} (ds : Diagnostics) : M A := fun s => (Return A ds, s).

(** A type assertion or a builder that may panic. *)
Definition assert {A} (o : option A) : M A :=
  fun s => match o with Some a => (Value A a, s) | None => (Panic A, s) end.

Definition getData : M ResourceData := fun s => (Value _ (data s), s).

Definition modifyData (f : ResourceData -> ResourceData) : M unit :=
  fun s => (Value _ tt, {| data := f (data s); world := world s |}).

(** One client method: logged, then run on the remote state. *)
Definition call {A} (c : C) (op : R -> A * R) : M A :=
  fun s =>
    let '(a, r) := op (remote (world s)) in
    (Value A a,
     {| data := data s;
        world := {| remote := r; calls := calls (world s) ++ [c] |} |}).

(** [v, err := f(...); if err != nil { return diag.FromErr(err) }]. *)
Definition orFromErr {A} (c : M (result A)) : M A :=
  bind c (fun r =>
    match r with
    | Ok a => ret a
    | Err e => return_ (FromErr e)
    end).

(** Loop over a slice, for its effects. *)
Fixpoint forEach {A} (l : list A) (body : A -> M unit) : M unit :=
  match l with
  | [] => ret tt
  | x :: l' => bind (body x) (fun _ => forEach l' body)
  end.

(** What the plugin runtime observes of a handler: the diagnostics it
    returned ([None] if it panicked), the resource data and the world. *)
Definition run (body : M Diagnostics) (d : ResourceData) (w : World)
  : option Diagnostics * ResourceData * World :=
  match body {| data := d; world := w |} with
  | (Value _ ds, s) | (Return _ ds, s) => (Some ds, data s, world s)
  | (Panic _, s) => (None, data s, world s)
  end.

End Monad.

Arguments World : clear implicits.
Arguments State : clear implicits.
Arguments M : clear implicits.

#[global] Instance M_ret {C R} : MRet (M C R) := fun A => @ret C R A.
#[global] Instance M_bind {C R} : MBind (M C R) := fun A B k c => @bind C R A B c k.

End Handler.

(* ===================================================================== *)
(** * Deployment process resource                                        *)
(* ===================================================================== *)

Module DeploymentProcess.
Import Terraform Handler.

(** ** Client library types *)

Record DeploymentStep := {
  StepID : string;
  StepName : string
}.

(** [deployments.DeploymentProcess], with the [ID] and [Links] of its
    embedded resource. *)
Record DeploymentProcess := {
  ID : string;
  Links : gmap string string;
  Branch : string;
  LastSnapshotID : string;
  ProjectID : string;
  SpaceID : string;
  Steps : list DeploymentStep;
  Version : Z
}.

Definition GetID (p : DeploymentProcess) : string := ID p.

Definition with_ID (v : string) (p : DeploymentProcess) : DeploymentProcess :=
  {| ID := v; Links := Links p; Branch := Branch p;
     LastSnapshotID := LastSnapshotID p; ProjectID := ProjectID p;
     SpaceID := SpaceID p; Steps := Steps p; Version := Version p |}.

Definition with_Links (v : gmap string string) (p : DeploymentProcess)
  : DeploymentProcess :=
  {| ID := ID p; Links := v; Branch := Branch p;
     LastSnapshotID := LastSnapshotID p; ProjectID := ProjectID p;
     SpaceID := SpaceID p; Steps := Steps p; Version := Version p |}.

Definition with_Version (v : Z) (p : DeploymentProcess) : DeploymentProcess :=
  {| ID := ID p; Links := Links p; Branch := Branch p;
     LastSnapshotID := LastSnapshotID p; ProjectID := ProjectID p;
     SpaceID := SpaceID p; Steps := Steps p; Version := v |}.

(** The zero value [deployments.DeploymentProcess{}]. *)
Definition zeroDeploymentProcess : DeploymentProcess :=
  {| ID := EmptyString; Links := ∅; Branch := EmptyString;
     LastSnapshotID := EmptyString; ProjectID := EmptyString;
     SpaceID := EmptyString; Steps := []; Version := 0 |}.

Inductive PersistenceSettingsType :=
| PersistenceSettingsTypeDatabase
| PersistenceSettingsTypeVersionControlled.

(** [projects.Project]: the fields the handlers read.  The
    [PersistenceSettings] interface value may be [nil]. *)
Record Project := {
  ProjectResourceID : string;
  DeploymentProcessID : string;
  PersistenceSettings : option PersistenceSettingsType
}.

(** [project.PersistenceSettings != nil &&
     project.PersistenceSettings.Type() == PersistenceSettingsTypeVersionControlled] *)
Definition isVersionControlled (project : Project) : bool :=
  match PersistenceSettings project with
  | Some PersistenceSettingsTypeVersionControlled => true
  | Some PersistenceSettingsTypeDatabase => false
  | None => false
  end.

(** ** The API client *)

Inductive Call :=
| ProjectsGetByID (id : string)
| DeploymentProcessesGetByID (id : string)
| DeploymentProcessesGet (project : Project) (gitRef : string)
| DeploymentProcessesUpdate (deploymentProcess : DeploymentProcess).

Record Client (R : Type) := {
  Projects_GetByID : string -> R -> result Project * R;
  DeploymentProcesses_GetByID : string -> R -> result DeploymentProcess * R;
  DeploymentProcesses_Get :
    Project -> string -> R -> result DeploymentProcess * R;
  DeploymentProcesses_Update :
    DeploymentProcess -> R -> result DeploymentProcess * R
}.
Arguments Projects_GetByID {R}.
Arguments DeploymentProcesses_GetByID {R}.
Arguments DeploymentProcesses_Get {R}.
Arguments DeploymentProcesses_Update {R}.

(** ** Patterns *)

(** [Projects-\d+] *)
Definition reProjectID : GoRegexp.regexp :=
  (GoRegexp.literal "Projects-"
   ++ [GoRegexp.Item GoRegexp.is_digit GoRegexp.Plus])%list.

(** [\d+-\w+] *)
Definition reGitRef : GoRegexp.regexp :=
  [GoRegexp.Item GoRegexp.is_digit GoRegexp.Plus;
   GoRegexp.lit "-";
   GoRegexp.Item GoRegexp.is_word GoRegexp.Plus].

Definition getGitRef (d : ResourceData) : string :=
  let parts := GoStrings.SplitAfter (GoRegexp.FindString reGitRef (Id d)) "-" in
  if (2 <? List.length parts)%nat then nth 1 parts EmptyString
  else EmptyString.

Definition branchChangeMessage : string :=
  "you cannot change a deployment processes branch. instead create a new resource with the new branch and, if required, destroy the previous one".

(** Modelled from the spec: [errors.DeleteFromState] of the provider's
    [internal/errors] package, which is not among the sources.  A final
    not-found drops the record from state without a diagnostic: the
    identifier is cleared and [nil] is returned. *)
Definition DeleteFromState {C R} (resource : string) : M C R Diagnostics :=
  modifyData (SetId EmptyString);;
  mret [].

Section Handlers.
Context {R : Type}.

(** The client handle [m]. *)
Variable m : Client R.

(** Functions of the provider that the handlers call and whose code is
    not among the sources: the builder and the flattener of the
    deployment-process schema, and the API-error filter of
    [internal/errors].  The builder is handed the client; it is taken
    here to read the configuration only and to return a process (no
    client method invoked, no nil result), and the properties of Create
    and Update below are properties of the handlers under that
    reading. *)
Variable expandDeploymentProcess : ResourceData -> DeploymentProcess.
Variable setDeploymentProcess :
  ResourceData -> DeploymentProcess -> ResourceData * option error.
Variable ProcessApiError :
  ResourceData -> error -> string -> Diagnostics * ResourceData.

Local Abbreviation M := (Handler.M Call R).

Definition projectsGetByID (id : string) : M (result Project) :=
  call (ProjectsGetByID id) (Projects_GetByID m id).
Definition deploymentProcessesGetByID (id : string) : M (result DeploymentProcess) :=
  call (DeploymentProcessesGetByID id) (DeploymentProcesses_GetByID m id).
Definition deploymentProcessesGet (project : Project) (gitRef : string)
  : M (result DeploymentProcess) :=
  call (DeploymentProcessesGet project gitRef)
       (DeploymentProcesses_Get m project gitRef).
Definition deploymentProcessesUpdate (p : DeploymentProcess)
  : M (result DeploymentProcess) :=
  call (DeploymentProcessesUpdate p) (DeploymentProcesses_Update m p).

(** [if err := setDeploymentProcess(ctx, d, p); err != nil
     { return diag.FromErr(err) }] *)
Definition setOrFromErr (p : DeploymentProcess) : M unit :=
  fun s =>
    let '(d, err) := setDeploymentProcess (data s) p in
    let s' := {| data := d; world := world s |} in
    match err with
    | Some e => (Return _ (FromErr e), s')
    | None => (Value _ tt, s')
    end.

Definition resourceDeploymentProcessCreate : M Diagnostics :=
  d ← getData;
  let deploymentProcess := expandDeploymentProcess d in
  project ← orFromErr (projectsGetByID (ProjectID deploymentProcess));
  current ←
    (if isVersionControlled project
     then orFromErr (deploymentProcessesGet project (Branch deploymentProcess))
     else orFromErr (deploymentProcessesGetByID (DeploymentProcessID project)));
  let deploymentProcess := with_ID (ID current) deploymentProcess in
  let deploymentProcess := with_Links (Links current) deploymentProcess in
  let deploymentProcess := with_Version (Version current) deploymentProcess in
  createdDeploymentProcess ← orFromErr (deploymentProcessesUpdate deploymentProcess);
  setOrFromErr createdDeploymentProcess;;
  let id := GetID createdDeploymentProcess in
  let id :=
    if isVersionControlled project
    then "deploymentprocess-" ++ ProjectID createdDeploymentProcess
         ++ "-" ++ Branch deploymentProcess
    else id in
  modifyData (SetId id);;
  mret [].

(** The payload both paths of Delete submit:
    [&deployments.DeploymentProcess{Version: current.Version}] with
    [Links] and [ID] assigned afterwards. *)
Definition emptiedProcess (id : string) (current : DeploymentProcess)
  : DeploymentProcess :=
  let deploymentProcess := with_Version (Version current) zeroDeploymentProcess in
  let deploymentProcess := with_Links (Links current) deploymentProcess in
  with_ID id deploymentProcess.

Definition resourceDeploymentProcessDelete : M Diagnostics :=
  d ← getData;
  r ← deploymentProcessesGetByID (Id d);
  match r with
  | Ok current =>
      let deploymentProcess := emptiedProcess (Id d) current in
      orFromErr (deploymentProcessesUpdate deploymentProcess);;
      modifyData (SetId EmptyString);;
      mret []
  | Err _ =>
      let projectID := GoRegexp.FindString reProjectID (Id d) in
      project ← orFromErr (projectsGetByID projectID);
      let gitRef := getGitRef d in
      current ← orFromErr (deploymentProcessesGet project gitRef);
      let deploymentProcess := emptiedProcess (Id d) current in
      orFromErr (deploymentProcessesUpdate deploymentProcess);;
      modifyData (SetId EmptyString);;
      mret []
  end.

Definition resourceDeploymentProcessRead : M Diagnostics :=
  d ← getData;
  r ← deploymentProcessesGetByID (Id d);
  match r with
  | Ok deploymentProcess =>
      setOrFromErr deploymentProcess;;
      mret []
  | Err _ =>
      let projectID := GoRegexp.FindString reProjectID (Id d) in
      r ← projectsGetByID projectID;
      match r with
      | Err err =>
          fun s =>
            let '(ds, d') := ProcessApiError (data s) err "project" in
            (Return _ ds, {| data := d'; world := world s |})
      | Ok project =>
          let gitRef := getGitRef d in
          r ← deploymentProcessesGet project gitRef;
          match r with
          | Ok deploymentProcess =>
              setOrFromErr deploymentProcess;;
              mret []
          | Err _ => DeleteFromState "deployment process"
          end
      end
  end.

Definition resourceDeploymentProcessUpdate : M Diagnostics :=
  d ← getData;
  let deploymentProcess := expandDeploymentProcess d in
  r ← deploymentProcessesGetByID (Id d);
  '(deploymentProcess, current) ←
    match r with
    | Ok current => mret (deploymentProcess, current)
    | Err _ =>
        let projectID := GoRegexp.FindString reProjectID (Id d) in
        project ← orFromErr (projectsGetByID projectID);
        let gitRef := getGitRef d in
        if negb (String.eqb (Branch deploymentProcess) gitRef)
           && negb (String.eqb gitRef EmptyString)
        then return_ (Errorf branchChangeMessage)
        else
          deploymentProcess ←
            (if isVersionControlled project
             then
               let deploymentProcess :=
                 with_ID ("deploymentprocess-" ++ projectID ++ "-"
                          ++ Branch deploymentProcess) deploymentProcess in
               modifyData (SetId (ID deploymentProcess));;
               mret deploymentProcess
             else mret deploymentProcess);
          current ←
            orFromErr (deploymentProcessesGet project (Branch deploymentProcess));
          mret (deploymentProcess, current)
    end;
  let deploymentProcess := with_Links (Links current) deploymentProcess in
  let deploymentProcess := with_Version (Version current) deploymentProcess in
  updatedDeploymentProcess ← orFromErr (deploymentProcessesUpdate deploymentProcess);
  setOrFromErr updatedDeploymentProcess;;
  mret [].

End Handlers.

End DeploymentProcess.

(* ===================================================================== *)
(** * Helpers shared by the trigger and lifecycle resources              *)
(* ===================================================================== *)

Module Util.
Import Terraform.

#[global] Instance result_ret : MRet result := fun A a => Ok a.
#[global] Instance result_bind : MBind result :=
  fun A B k r => match r with Ok a => k a | Err e => Err e end.

(** Modelled from the spec: [getSliceFromTerraformTypeList] of the
    provider's utilities, which is not among the sources.  It reads a
    Terraform list of strings as a [[]string]. *)
Definition getSliceFromTerraformTypeList (v : value) : list string :=
  match v with
  | VList l => omap as_string l
  | VStrings l => l
  | _ => []
  end.

(** Membership in a slice of strings. *)
Definition sliceContains (slice : list string) (v : string) : bool :=
  existsb (String.eqb v) slice.

(** Modelled from the spec: [validateAllSliceItemsInSlice] of the
    provider's utilities, which is not among the sources.  The given
    values must all belong to the permitted ones; the result names the
    first offending value and [false], or the empty string and [true]
    when there is none. *)
Fixpoint validateAllSliceItemsInSlice (givenSlice validationSlice : list string)
  : string * bool :=
  match givenSlice with
  | [] => (EmptyString, true)
  | v :: rest =>
      if sliceContains validationSlice v
      then validateAllSliceItemsInSlice rest validationSlice
      else (v, false)
  end.

(** The verb [%v] of [fmt] applied to a [[]string]. *)
Definition fmt_v (l : list string) : string :=
  "[" ++ GoStrings.Join l " " ++ "]".

End Util.

(* ===================================================================== *)
(** * Project deployment-target trigger resource                         *)
(* ===================================================================== *)

Module Trigger.
Import Terraform Handler Util.

Record ProjectTriggerAction := {
  ShouldRedeployWhenMachineHasBeenDeployedTo : bool
}.

Record ProjectTriggerFilter := {
  EnvironmentIDs : list string;
  EventCategories : list string;
  EventGroups : list string;
  Roles : list string
}.

(** [octopusdeploy.ProjectTrigger]. *)
Record ProjectTrigger := {
  ID : string;
  Name : string;
  ProjectID : string;
  Action : ProjectTriggerAction;
  Filter : ProjectTriggerFilter
}.

Definition GetID (t : ProjectTrigger) : string := ID t.

Definition with_ID (v : string) (t : ProjectTrigger) : ProjectTrigger :=
  {| ID := v; Name := Name t; ProjectID := ProjectID t;
     Action := Action t; Filter := Filter t |}.

Definition with_Filter (f : ProjectTriggerFilter) (t : ProjectTrigger)
  : ProjectTrigger :=
  {| ID := ID t; Name := Name t; ProjectID := ProjectID t;
     Action := Action t; Filter := f |}.

(** Constructor and mutators of the client library. *)
Definition NewProjectDeploymentTargetTrigger
  (name projectID : string) (shouldRedeploy : bool)
  (roles eventGroups eventCategories : list string) : ProjectTrigger :=
  {| ID := EmptyString; Name := name; ProjectID := projectID;
     Action := {| ShouldRedeployWhenMachineHasBeenDeployedTo := shouldRedeploy |};
     Filter := {| EnvironmentIDs := []; EventCategories := eventCategories;
                  EventGroups := eventGroups; Roles := roles |} |}.

Definition AddEventGroups (eventGroups : list string) (t : ProjectTrigger)
  : ProjectTrigger :=
  let f := Filter t in
  with_Filter {| EnvironmentIDs := EnvironmentIDs f;
                 EventCategories := EventCategories f;
                 EventGroups := (EventGroups f ++ eventGroups)%list;
                 Roles := Roles f |} t.

Definition AddEventCategories (eventCategories : list string) (t : ProjectTrigger)
  : ProjectTrigger :=
  let f := Filter t in
  with_Filter {| EnvironmentIDs := EnvironmentIDs f;
                 EventCategories := (EventCategories f ++ eventCategories)%list;
                 EventGroups := EventGroups f;
                 Roles := Roles f |} t.

Definition with_Roles (roles : list string) (t : ProjectTrigger) : ProjectTrigger :=
  let f := Filter t in
  with_Filter {| EnvironmentIDs := EnvironmentIDs f;
                 EventCategories := EventCategories f;
                 EventGroups := EventGroups f;
                 Roles := roles |} t.

Definition with_EnvironmentIDs (ids : list string) (t : ProjectTrigger)
  : ProjectTrigger :=
  let f := Filter t in
  with_Filter {| EnvironmentIDs := ids;
                 EventCategories := EventCategories f;
                 EventGroups := EventGroups f;
                 Roles := Roles f |} t.

Definition validEventGroups : list string :=
  ["Machine";
   "MachineCritical";
   "MachineAvailableForDeployment";
   "MachineUnavailableForDeployment";
   "MachineHealthChanged"].

Definition validEventCategories : list string :=
  ["MachineCleanupFailed";
   "MachineAdded";
   "MachineDeploymentRelatedPropertyWasUpdated";
   "MachineDisabled";
   "MachineEnabled";
   "MachineHealthy";
   "MachineUnavailable";
   "MachineUnhealthy";
   "MachineHasWarnings"].

(** The builder.  The outer [option] is [None] when one of the three
    type assertions panics; the [result] is the Go pair
    [(trigger, err)]. *)
Definition buildProjectDeploymentTargetTriggerResource (d : ResourceData)
  : option (result ProjectTrigger) :=
  name ← as_string (Get d "name");
  projectID ← as_string (Get d "project_id");
  shouldRedeploy ← as_bool (Get d "should_redeploy");
  let deploymentTargetTrigger :=
    NewProjectDeploymentTargetTrigger name projectID shouldRedeploy [] [] [] in
  Some (
    deploymentTargetTrigger ←
      (let '(attr, ok) := GetOk d "event_groups" in
       if ok then
         let eventGroups := getSliceFromTerraformTypeList attr in
         let validValues := validEventGroups in
         let '(invalidValue, ok) :=
           validateAllSliceItemsInSlice eventGroups validValues in
         if negb ok then
           Err ("Invalid value for event_groups. " ++ invalidValue
                ++ " not in " ++ fmt_v validValues)
         else Ok (AddEventGroups eventGroups deploymentTargetTrigger)
       else Ok deploymentTargetTrigger);
    deploymentTargetTrigger ←
      (let '(attr, ok) := GetOk d "event_categories" in
       if ok then
         let eventCategories := getSliceFromTerraformTypeList attr in
         let validValues := validEventCategories in
         let '(invalidValue, ok) :=
           validateAllSliceItemsInSlice eventCategories validValues in
         if negb ok then
           Err ("Invalid value for event_categories. " ++ invalidValue
                ++ " not in " ++ fmt_v validValues)
         else Ok (AddEventCategories eventCategories deploymentTargetTrigger)
       else Ok deploymentTargetTrigger);
    let deploymentTargetTrigger :=
      (let '(attr, ok) := GetOk d "roles" in
       if ok
       then with_Roles (getSliceFromTerraformTypeList attr) deploymentTargetTrigger
       else deploymentTargetTrigger) in
    let deploymentTargetTrigger :=
      (let '(attr, ok) := GetOk d "environment_ids" in
       if ok
       then with_EnvironmentIDs (getSliceFromTerraformTypeList attr)
                                deploymentTargetTrigger
       else deploymentTargetTrigger) in
    Ok deploymentTargetTrigger).

(** ** The API client *)

Inductive Call :=
| ProjectTriggersAdd (t : ProjectTrigger)
| ProjectTriggersGetByID (id : string)
| ProjectTriggersUpdate (t : ProjectTrigger)
| ProjectTriggersDeleteByID (id : string).

(** [GetByID] yields a pointer that Read compares with [nil]; the
    pointers [Add] and [Update] yield are dereferenced unchecked.
    [DeleteByID] yields only an error, [None] for [nil]. *)
Record Client (R : Type) := {
  ProjectTriggers_Add : ProjectTrigger -> R -> result ProjectTrigger * R;
  ProjectTriggers_GetByID : string -> R -> result (option ProjectTrigger) * R;
  ProjectTriggers_Update : ProjectTrigger -> R -> result ProjectTrigger * R;
  ProjectTriggers_DeleteByID : string -> R -> option error * R
}.
Arguments ProjectTriggers_Add {R}.
Arguments ProjectTriggers_GetByID {R}.
Arguments ProjectTriggers_Update {R}.
Arguments ProjectTriggers_DeleteByID {R}.

Section Handlers.
Context {R : Type}.
Variable m : Client R.

(** [isEmpty] of the provider's utilities, not among the sources. *)
Variable isEmpty : string -> bool.

Local Abbreviation M := (Handler.M Call R).

Definition resourceProjectDeploymentTargetTriggerCreate : M Diagnostics :=
  d ← getData;
  built ← assert (buildProjectDeploymentTargetTriggerResource d);
  projectTrigger ← orFromErr (mret built);
  resource ← orFromErr (call (ProjectTriggersAdd projectTrigger)
                             (ProjectTriggers_Add m projectTrigger));
  (if isEmpty (GetID resource)
   then mret tt
   else modifyData (SetId (GetID resource)));;
  mret [].

Definition resourceProjectDeploymentTargetTriggerRead : M Diagnostics :=
  d ← getData;
  let id := Id d in
  resource ← orFromErr (call (ProjectTriggersGetByID id)
                             (ProjectTriggers_GetByID m id));
  match resource with
  | None =>
      modifyData (SetId EmptyString);;
      mret []
  | Some resource =>
      modifyData (Set_ "environment_ids" (VStrings (EnvironmentIDs (Filter resource))));;
      modifyData (Set_ "event_groups" (VStrings (EventGroups (Filter resource))));;
      modifyData (Set_ "event_categories" (VStrings (EventCategories (Filter resource))));;
      modifyData (Set_ "name" (VString (Name resource)));;
      modifyData (Set_ "roles" (VStrings (Roles (Filter resource))));;
      modifyData (Set_ "should_redeploy"
        (VBool (ShouldRedeployWhenMachineHasBeenDeployedTo (Action resource))));;
      mret []
  end.

Definition resourceProjectDeploymentTargetTriggerUpdate : M Diagnostics :=
  d ← getData;
  built ← assert (buildProjectDeploymentTargetTriggerResource d);
  projectTrigger ← orFromErr (mret built);
  let projectTrigger := with_ID (Id d) projectTrigger in
  resource ← orFromErr (call (ProjectTriggersUpdate projectTrigger)
                             (ProjectTriggers_Update m projectTrigger));
  modifyData (SetId (GetID resource));;
  mret [].

Definition resourceProjectDeploymentTargetTriggerDelete : M Diagnostics :=
  d ← getData;
  err ← call (ProjectTriggersDeleteByID (Id d))
             (ProjectTriggers_DeleteByID m (Id d));
  match err with
  | Some err => return_ (FromErr err)
  | None =>
      modifyData (SetId EmptyString);;
      mret []
  end.

End Handlers.

End Trigger.

(* ===================================================================== *)
(** * Lifecycle resource                                                 *)
(* ===================================================================== *)

Module Lifecycle.
Import Terraform Handler Util.

(** Modelled from the spec: the attribute-name constants of the
    provider's constants file, which is not among the sources.  Each is
    the name of the schema attribute it stands for. *)
Definition constAutomaticDeploymentTargets : string := "automatic_deployment_targets".
Definition constDescription : string := "description".
Definition constEmptyString : string := EmptyString.
Definition constID : string := "id".
Definition constIsOptionalPhase : string := "is_optional_phase".
Definition constMinimumEnvironmentsBeforePromotion : string :=
  "minimum_environments_before_promotion".
Definition constName : string := "name".
Definition constOptionalDeploymentTargets : string := "optional_deployment_targets".
Definition constPhase : string := "phase".
Definition constQuantityToKeep : string := "quantity_to_keep".
Definition constReleaseRetentionPolicy : string := "release_retention_policy".
Definition constShouldKeepForever : string := "should_keep_forever".
Definition constTentacleRetentionPolicy : string := "tentacle_retention_policy".
Definition constUnit : string := "unit".

(** [octopusdeploy.Phase]; its two retention policies are pointers. *)
Record Phase := {
  AutomaticDeploymentTargets : list string;
  PhaseID : string;
  IsOptionalPhase : bool;
  MinimumEnvironmentsBeforePromotion : Z;
  PhaseName : string;
  OptionalDeploymentTargets : list string;
  PhaseReleaseRetentionPolicy : option RetentionPeriod;
  PhaseTentacleRetentionPolicy : option RetentionPeriod
}.

(** [octopusdeploy.Lifecycle]. *)
Record Lifecycle := {
  ID : string;
  Description : string;
  Name : string;
  Phases : list Phase;
  ReleaseRetentionPolicy : RetentionPeriod;
  TentacleRetentionPolicy : RetentionPeriod
}.

Definition GetID (l : Lifecycle) : string := ID l.

Definition with_ID (v : string) (l : Lifecycle) : Lifecycle :=
  {| ID := v; Description := Description l; Name := Name l;
     Phases := Phases l;
     ReleaseRetentionPolicy := ReleaseRetentionPolicy l;
     TentacleRetentionPolicy := TentacleRetentionPolicy l |}.

Definition with_Description (v : string) (l : Lifecycle) : Lifecycle :=
  {| ID := ID l; Description := v; Name := Name l;
     Phases := Phases l;
     ReleaseRetentionPolicy := ReleaseRetentionPolicy l;
     TentacleRetentionPolicy := TentacleRetentionPolicy l |}.

Definition with_Phases (v : list Phase) (l : Lifecycle) : Lifecycle :=
  {| ID := ID l; Description := Description l; Name := Name l;
     Phases := v;
     ReleaseRetentionPolicy := ReleaseRetentionPolicy l;
     TentacleRetentionPolicy := TentacleRetentionPolicy l |}.

Definition with_ReleaseRetentionPolicy (v : RetentionPeriod) (l : Lifecycle)
  : Lifecycle :=
  {| ID := ID l; Description := Description l; Name := Name l;
     Phases := Phases l;
     ReleaseRetentionPolicy := v;
     TentacleRetentionPolicy := TentacleRetentionPolicy l |}.

Definition with_TentacleRetentionPolicy (v : RetentionPeriod) (l : Lifecycle)
  : Lifecycle :=
  {| ID := ID l; Description := Description l; Name := Name l;
     Phases := Phases l;
     ReleaseRetentionPolicy := ReleaseRetentionPolicy l;
     TentacleRetentionPolicy := v |}.

(** ** Builders *)

(** [nil] is returned as [Some None]; a failed type assertion is [None].
    The struct literal names [Unit] and [QuantityToKeep] only, so
    [ShouldKeepForever] keeps its zero value. *)
Definition getRetentionPeriod (d : ResourceData) (key : string)
  : option (option RetentionPeriod) :=
  let '(v, ok) := GetOk d key in
  if ok then
    retentionPeriod ← as_list v;
    if (List.length retentionPeriod =? 1)%nat then
      tfRetentionItem ← as_map (nth 0 retentionPeriod VNil);
      unit ← as_string (index tfRetentionItem constUnit);
      quantityToKeep ← as_int (index tfRetentionItem constQuantityToKeep);
      let retention :=
        {| Unit := unit;
           QuantityToKeep := int32 quantityToKeep;
           ShouldKeepForever := false |} in
      Some (Some retention)
    else Some None
  else Some None.

(** A nil slice and an empty slice are both the empty list. *)
Definition is_nil (l : list string) : bool :=
  match l with [] => true | _ => false end.

Definition buildPhaseResource (tfPhase : gmap string value) : option Phase :=
  name ← as_string (index tfPhase constName);
  minimumEnvironmentsBeforePromotion ←
    as_int (index tfPhase constMinimumEnvironmentsBeforePromotion);
  isOptionalPhase ← as_bool (index tfPhase constIsOptionalPhase);
  let automaticDeploymentTargets :=
    getSliceFromTerraformTypeList (index tfPhase constAutomaticDeploymentTargets) in
  let optionalDeploymentTargets :=
    getSliceFromTerraformTypeList (index tfPhase constOptionalDeploymentTargets) in
  let automaticDeploymentTargets :=
    if is_nil automaticDeploymentTargets then [] else automaticDeploymentTargets in
  let optionalDeploymentTargets :=
    if is_nil optionalDeploymentTargets then [] else optionalDeploymentTargets in
  Some {| AutomaticDeploymentTargets := automaticDeploymentTargets;
          PhaseID := EmptyString;
          IsOptionalPhase := isOptionalPhase;
          MinimumEnvironmentsBeforePromotion :=
            int32 minimumEnvironmentsBeforePromotion;
          PhaseName := name;
          OptionalDeploymentTargets := optionalDeploymentTargets;
          PhaseReleaseRetentionPolicy := None;
          PhaseTentacleRetentionPolicy := None |}.

(** The loop of [buildLifecycleResource] over the configured phases. *)
Fixpoint appendPhases (tfPhases : list value) (lifecycle : Lifecycle)
  : option Lifecycle :=
  match tfPhases with
  | [] => Some lifecycle
  | tfPhase :: rest =>
      tfPhase ← as_map tfPhase;
      phase ← buildPhaseResource tfPhase;
      appendPhases rest (with_Phases (Phases lifecycle ++ [phase])%list lifecycle)
  end.

Section Build.

(** [octopusdeploy.NewLifecycle] of the client library. *)
Variable NewLifecycle : string -> Lifecycle.

Definition buildLifecycleResource (d : ResourceData) : option Lifecycle :=
  name ←
    (let '(v, ok) := GetOk d constName in
     if ok then as_string v else Some EmptyString);
  let lifecycle := NewLifecycle name in
  lifecycle ←
    (let '(v, ok) := GetOk d constDescription in
     if ok then
       description ← as_string v;
       Some (with_Description description lifecycle)
     else Some lifecycle);
  releaseRetentionPolicy ← getRetentionPeriod d constReleaseRetentionPolicy;
  let lifecycle :=
    match releaseRetentionPolicy with
    | Some r => with_ReleaseRetentionPolicy r lifecycle
    | None => lifecycle
    end in
  tentacleRetentionPolicy ← getRetentionPeriod d constTentacleRetentionPolicy;
  let lifecycle :=
    match tentacleRetentionPolicy with
    | Some r => with_TentacleRetentionPolicy r lifecycle
    | None => lifecycle
    end in
  let '(attr, ok) := GetOk d constPhase in
  if ok then
    tfPhases ← as_list attr;
    appendPhases tfPhases lifecycle
  else Some lifecycle.

End Build.

(** ** Flatteners *)

Definition flattenPhase (p : Phase) : value :=
  let phase : gmap string value := ∅ in
  let phase := <[constAutomaticDeploymentTargets :=
                   VStrings (AutomaticDeploymentTargets p)]> phase in
  let phase := <[constID := VString (PhaseID p)]> phase in
  let phase := <[constIsOptionalPhase := VBool (IsOptionalPhase p)]> phase in
  let phase := <[constMinimumEnvironmentsBeforePromotion :=
                   VInt32 (MinimumEnvironmentsBeforePromotion p)]> phase in
  let phase := <[constName := VString (PhaseName p)]> phase in
  let phase := <[constOptionalDeploymentTargets :=
                   VStrings (OptionalDeploymentTargets p)]> phase in
  let phase := <[constReleaseRetentionPolicy :=
                   VRetentionPeriodPtr (PhaseReleaseRetentionPolicy p)]> phase in
  let phase := <[constTentacleRetentionPolicy :=
                   VRetentionPeriodPtr (PhaseTentacleRetentionPolicy p)]> phase in
  VList [VMap phase].

Definition flattenRetentionPeriod (r : RetentionPeriod) : value :=
  let retentionPeriod : gmap string value := ∅ in
  let retentionPeriod := <[constUnit := VString (Unit r)]> retentionPeriod in
  let retentionPeriod :=
    <[constQuantityToKeep := VInt32 (QuantityToKeep r)]> retentionPeriod in
  let retentionPeriod :=
    <[constShouldKeepForever := VBool (ShouldKeepForever r)]> retentionPeriod in
  VList [VMap retentionPeriod].

(** ** The API client *)

Inductive Call :=
| LifecyclesAdd (l : Lifecycle)
| LifecyclesGetByID (id : string)
| LifecyclesUpdate (l : Lifecycle)
| LifecyclesDeleteByID (id : string).

Record Client (R : Type) := {
  Lifecycles_Add : Lifecycle -> R -> result Lifecycle * R;
  Lifecycles_GetByID : string -> R -> result Lifecycle * R;
  Lifecycles_Update : Lifecycle -> R -> result Lifecycle * R;
  Lifecycles_DeleteByID : string -> R -> option error * R
}.
Arguments Lifecycles_Add {R}.
Arguments Lifecycles_GetByID {R}.
Arguments Lifecycles_Update {R}.
Arguments Lifecycles_DeleteByID {R}.

Section Handlers.
Context {R : Type}.
Variable m : Client R.
Variable NewLifecycle : string -> Lifecycle.

Local Abbreviation M := (Handler.M Call R).

Definition flattenLifecycle (lifecycle : Lifecycle) : M unit :=
  modifyData (Set_ constDescription (VString (Description lifecycle)));;
  modifyData (Set_ constName (VString (Name lifecycle)));;
  forEach (Phases lifecycle) (fun phase =>
    modifyData (Set_ constPhase (flattenPhase phase)));;
  modifyData (Set_ constReleaseRetentionPolicy
    (flattenRetentionPeriod (ReleaseRetentionPolicy lifecycle)));;
  modifyData (Set_ constTentacleRetentionPolicy
    (flattenRetentionPeriod (TentacleRetentionPolicy lifecycle)));;
  modifyData (SetId (GetID lifecycle)).

Definition resourceLifecycleCreate : M Diagnostics :=
  d ← getData;
  lifecycle ← assert (buildLifecycleResource NewLifecycle d);
  createdLifecycle ← orFromErr (call (LifecyclesAdd lifecycle)
                                     (Lifecycles_Add m lifecycle));
  flattenLifecycle createdLifecycle;;
  mret [].

Definition resourceLifecycleRead : M Diagnostics :=
  d ← getData;
  lifecycle ← orFromErr (call (LifecyclesGetByID (Id d))
                              (Lifecycles_GetByID m (Id d)));
  flattenLifecycle lifecycle;;
  mret [].

Definition resourceLifecycleUpdate : M Diagnostics :=
  d ← getData;
  lifecycle ← assert (buildLifecycleResource NewLifecycle d);
  let lifecycle := with_ID (Id d) lifecycle in
  updatedLifecycle ← orFromErr (call (LifecyclesUpdate lifecycle)
                                     (Lifecycles_Update m lifecycle));
  flattenLifecycle updatedLifecycle;;
  mret [].

Definition resourceLifecycleDelete : M Diagnostics :=
  d ← getData;
  err ← call (LifecyclesDeleteByID (Id d)) (Lifecycles_DeleteByID m (Id d));
  match err with
  | Some err => return_ (FromErr err)
  | None =>
      modifyData (SetId constEmptyString);;
      mret []
  end.

End Handlers.

End Lifecycle.

(* ===================================================================== *)
(** * Concrete remotes and configurations                                *)
(* ===================================================================== *)

(** Small servers and configurations on which the handlers are run. *)

Module Scenario.
Import Terraform Handler.

Definition attrs (l : list (string * value)) : gmap string value := list_to_map l.

(** ** Deployment processes *)

Module DP.
Import DeploymentProcess.

(** The server keeps the projects, the processes stored in its database
    (by identifier) and those stored in version control (by project and
    git ref). *)
Record Server := {
  projects : gmap string Project;
  processes : gmap string DeploymentProcess;
  branches : gmap (string * string) DeploymentProcess
}.

Definition notFound {A} : result A := Err "not found".

Definition client : Client Server := {|
  Projects_GetByID id r :=
    (match projects r !! id with Some p => Ok p | None => notFound end, r);
  DeploymentProcesses_GetByID id r :=
    (match processes r !! id with Some p => Ok p | None => notFound end, r);
  DeploymentProcesses_Get project gitRef r :=
    (match branches r !! (ProjectResourceID project, gitRef) with
     | Some p => Ok p
     | None => notFound
     end, r);
  DeploymentProcesses_Update p r :=
    (Ok p,
     match processes r !! ID p with
     | Some _ => {| projects := projects r;
                    processes := <[ID p := p]> (processes r);
                    branches := branches r |}
     | None => r
     end)
|}.

Definition expand (d : ResourceData) : DeploymentProcess :=
  {| ID := Id d; Links := ∅;
     Branch := default EmptyString (as_string (Get d "branch"));
     LastSnapshotID := EmptyString;
     ProjectID := default EmptyString (as_string (Get d "project_id"));
     SpaceID := EmptyString; Steps := []; Version := 0 |}.

Definition set (d : ResourceData) (p : DeploymentProcess)
  : ResourceData * option error :=
  (Set_ "version" (VInt32 (Version p))
     (Set_ "project_id" (VString (ProjectID p))
        (Set_ "branch" (VString (Branch p)) d)),
   None).

Definition processApiError (d : ResourceData) (err : error) (resource : string)
  : Diagnostics * ResourceData := (FromErr err, d).

Definition project123 : Project :=
  {| ProjectResourceID := "Projects-123";
     DeploymentProcessID := "deploymentprocess-Projects-123";
     PersistenceSettings := Some PersistenceSettingsTypeVersionControlled |}.

Definition project7 : Project :=
  {| ProjectResourceID := "Projects-7";
     DeploymentProcessID := "deploymentprocess-Projects-7";
     PersistenceSettings := Some PersistenceSettingsTypeDatabase |}.

Definition stored (id branch projectID : string) (version : Z) : DeploymentProcess :=
  {| ID := id; Links := {["Self" := "/api/deploymentprocesses/" ++ id]};
     Branch := branch; LastSnapshotID := EmptyString; ProjectID := projectID;
     SpaceID := "Spaces-1";
     Steps := [{| StepID := "step-1"; StepName := "Deploy" |}];
     Version := version |}.

Definition server : Server :=
  {| projects := list_to_map [("Projects-123", project123); ("Projects-7", project7)];
     processes :=
       list_to_map [("deploymentprocess-Projects-7",
                     stored "deploymentprocess-Projects-7" EmptyString "Projects-7" 3)];
     branches :=
       list_to_map
         [(("Projects-123", "main"),
           stored "deploymentprocess-Projects-123" "main" "Projects-123" 4);
          (("Projects-123", "dev"),
           stored "deploymentprocess-Projects-123" "dev" "Projects-123" 9)] |}.

Definition world : World Call Server := {| remote := server; calls := [] |}.

Definition config (id projectID branch : string) : ResourceData :=
  {| rd_id := id;
     rd_attrs := attrs [("project_id", VString projectID);
                        ("branch", VString branch)] |}.

End DP.

(** ** Project triggers *)

Module Trig.
Import Trigger.

(** A client that reports a missing trigger as a nil pointer. *)
Definition client : Client (gmap string ProjectTrigger) := {|
  ProjectTriggers_Add t r :=
    let t := with_ID "ProjectTriggers-1" t in
    (Ok t, <["ProjectTriggers-1" := t]> r);
  ProjectTriggers_GetByID id r := (Ok (r !! id), r);
  ProjectTriggers_Update t r :=
    match r !! ID t with
    | Some _ => (Ok t, <[ID t := t]> r)
    | None => (Err "not found", r)
    end;
  ProjectTriggers_DeleteByID id r :=
    match r !! id with
    | Some _ => (None, delete id r)
    | None => (Some "not found", r)
    end
|}.

Definition isEmpty (s : string) : bool := String.eqb s EmptyString.

Definition world (r : gmap string ProjectTrigger)
  : World Call (gmap string ProjectTrigger) := {| remote := r; calls := [] |}.

Definition config (id : string) (eventGroups eventCategories : list string)
  : ResourceData :=
  {| rd_id := id;
     rd_attrs := attrs [("name", VString "redeploy");
                        ("project_id", VString "Projects-1");
                        ("should_redeploy", VBool true);
                        ("event_groups", VList (VString <$> eventGroups));
                        ("event_categories", VList (VString <$> eventCategories));
                        ("roles", VList []);
                        ("environment_ids", VList [])] |}.

Definition existing : ProjectTrigger :=
  with_ID "ProjectTriggers-1"
    (NewProjectDeploymentTargetTrigger "redeploy" "Projects-1" true [] [] []).

End Trig.

(** ** Lifecycles *)

Module LC.
Import Lifecycle.

Definition days : RetentionPeriod :=
  {| QuantityToKeep := 0; ShouldKeepForever := false; Unit := "Days" |}.

Definition newLifecycle (name : string) : Lifecycle :=
  {| ID := EmptyString; Description := EmptyString; Name := name; Phases := [];
     ReleaseRetentionPolicy := days; TentacleRetentionPolicy := days |}.

(** A server that stores what it is sent and returns it unchanged but
    for the identifier it assigns. *)
Definition client : Client (gmap string Lifecycle) := {|
  Lifecycles_Add l r :=
    let l := with_ID "Lifecycles-1" l in
    (Ok l, <["Lifecycles-1" := l]> r);
  Lifecycles_GetByID id r :=
    (match r !! id with Some l => Ok l | None => Err "not found" end, r);
  Lifecycles_Update l r :=
    match r !! ID l with
    | Some _ => (Ok l, <[ID l := l]> r)
    | None => (Err "not found", r)
    end;
  Lifecycles_DeleteByID id r :=
    match r !! id with
    | Some _ => (None, delete id r)
    | None => (Some "not found", r)
    end
|}.

Definition world (r : gmap string Lifecycle)
  : World Call (gmap string Lifecycle) := {| remote := r; calls := [] |}.

Definition tfPhase (name : string) (automatic : list string) : value :=
  VMap (attrs [(constName, VString name);
               (constMinimumEnvironmentsBeforePromotion, VInt 0);
               (constIsOptionalPhase, VBool false);
               (constAutomaticDeploymentTargets, VList (VString <$> automatic));
               (constOptionalDeploymentTargets, VList []);
               (constReleaseRetentionPolicy, VList []);
               (constTentacleRetentionPolicy, VList [])]).

Definition tfRetention (quantity : Z) (forever : bool) (unit : string) : value :=
  VMap (attrs [(constQuantityToKeep, VInt quantity);
               (constShouldKeepForever, VBool forever);
               (constUnit, VString unit)]).

(** A lifecycle with two phases that keeps five releases for ever. *)
Definition config : ResourceData :=
  {| rd_id := EmptyString;
     rd_attrs := attrs [(constName, VString "Standard");
                        (constDescription, VString "test then production");
                        (constPhase, VList [tfPhase "Test" ["Environments-1"];
                                            tfPhase "Production" ["Environments-2"]]);
                        (constReleaseRetentionPolicy, VList [tfRetention 5 true "Items"]);
                        (constTentacleRetentionPolicy, VList [])] |}.

Definition phase (name : string) (automatic : list string) : Phase :=
  {| AutomaticDeploymentTargets := automatic;
     PhaseID := EmptyString;
     IsOptionalPhase := false;
     MinimumEnvironmentsBeforePromotion := 0;
     PhaseName := name;
     OptionalDeploymentTargets := [];
     PhaseReleaseRetentionPolicy := None;
     PhaseTentacleRetentionPolicy := None |}.

End LC.

End Scenario.

(* ===================================================================== *)
(** * Vocabulary of the further properties                               *)
(* ===================================================================== *)

Module Shape.
Import Terraform.

(** Every byte of [s] satisfies [p]. *)
Fixpoint all (p : ascii -> bool) (s : string) : bool :=
  match s with
  | EmptyString => true
  | String c s' => p c && all p s'
  end.

(** The identifier Create and Update assemble for a version-controlled
    project: ["deploymentprocess-" + projectID + "-" + branch]. *)
Definition compositeID (projectID branch : string) : string :=
  "deploymentprocess-" ++ projectID ++ "-" ++ branch.

(** The client methods of the deployment-process handlers that only
    read. *)
Definition isLookup (c : DeploymentProcess.Call) : bool :=
  match c with
  | DeploymentProcess.DeploymentProcessesUpdate _ => false
  | _ => true
  end.

(** The git ref of a lookup by project and ref. *)
Definition gitRefOf (c : DeploymentProcess.Call) : option string :=
  match c with
  | DeploymentProcess.DeploymentProcessesGet _ gitRef => Some gitRef
  | _ => None
  end.

(** What the builder makes of one configured phase: name, promotion
    threshold (converted to 32 bits), optional flag and the two target
    lists are read from the map; the identifier is empty and the two
    retention policies of the phase are never read. *)
Definition phaseBuiltFrom (tfPhase : value) (p : Lifecycle.Phase) : Prop :=
  exists m threshold,
    tfPhase = VMap m /\
    index m Lifecycle.constName = VString (Lifecycle.PhaseName p) /\
    index m Lifecycle.constMinimumEnvironmentsBeforePromotion = VInt threshold /\
    Lifecycle.MinimumEnvironmentsBeforePromotion p = int32 threshold /\
    index m Lifecycle.constIsOptionalPhase = VBool (Lifecycle.IsOptionalPhase p) /\
    Lifecycle.AutomaticDeploymentTargets p
      = Util.getSliceFromTerraformTypeList (index m Lifecycle.constAutomaticDeploymentTargets) /\
    Lifecycle.OptionalDeploymentTargets p
      = Util.getSliceFromTerraformTypeList (index m Lifecycle.constOptionalDeploymentTargets) /\
    Lifecycle.PhaseID p = EmptyString /\
    Lifecycle.PhaseReleaseRetentionPolicy p = None /\
    Lifecycle.PhaseTentacleRetentionPolicy p = None.

End Shape.

(** A client of the trigger API that keeps to the contract of the client
    library: every method returns an entity or an error, and a trigger
    the server does not hold is reported by [GetByID] as an error. *)
Module Strict.

Definition client : Trigger.Client (gmap string Trigger.ProjectTrigger) := {|
  Trigger.ProjectTriggers_Add :=
    Trigger.ProjectTriggers_Add Scenario.Trig.client;
  Trigger.ProjectTriggers_GetByID id r :=
    (match r !! id with
     | Some t => Ok (Some t)
     | None => Err "not found"
     end, r);
  Trigger.ProjectTriggers_Update :=
    Trigger.ProjectTriggers_Update Scenario.Trig.client;
  Trigger.ProjectTriggers_DeleteByID :=
    Trigger.ProjectTriggers_DeleteByID Scenario.Trig.client
|}.

End Strict.

(* ===================================================================== *)
(** * Properties of the library functions                                *)
(* ===================================================================== *)

Section RegexpFacts.
Import GoRegexp GoStrings.

Lemma match_here_one cls re c s :
  match_here (Item cls One :: re) (String c s)
  = if cls c then String c <$> match_here re s else None.
Proof. reflexivity. Qed.

Lemma match_here_plus cls re c s :
  match_here (Item cls Plus :: re) (String c s)
  = if cls c then
      match match_here (Item cls Plus :: re) s with
      | Some m => Some (String c m)
      | None => String c <$> match_here re s
      end
    else None.
Proof. reflexivity. Qed.

Lemma match_here_empty it re : match_here (it :: re) EmptyString = None.
Proof. destruct it as [cls []]; reflexivity. Qed.

Lemma Count_cons c s sep :
  Count (String c s) sep = ((if Ascii.eqb c sep then 1 else 0) + Count s sep)%nat.
Proof. reflexivity. Qed.

(** A match holds at most as many [sep] as the pattern has items that
    take one. *)
Lemma match_here_Count sep re :
  bounded sep re ->
  forall s m, match_here re s = Some m ->
  (Count m sep <= List.length (consumers sep re))%nat.
Proof.
  unfold bounded, consumers. induction re as [|[cls q] re IH]; intros Hb s m Hm.
  - simpl in Hm. injection Hm as <-. simpl. lia.
  - apply Forall_cons in Hb as [Hit Hb]. specialize (IH Hb).
    rewrite filter_cons. simpl in Hit |- *. destruct q.
    + destruct s as [|c s]; [discriminate|].
      rewrite match_here_one in Hm.
      destruct (cls c) eqn:Hc; [|discriminate].
      destruct (match_here re s) as [m'|] eqn:Hm'; [|discriminate].
      injection Hm as <-. specialize (IH _ _ Hm').
      rewrite Count_cons.
      destruct (Ascii.eqb_spec c sep) as [->|Hne].
      * rewrite decide_True by assumption. simpl. lia.
      * destruct (decide (cls sep = true)); simpl; lia.
    + specialize (Hit eq_refl).
      rewrite decide_False by congruence.
      revert m Hm. induction s as [|c s IHs]; intros m Hm.
      * rewrite match_here_empty in Hm. discriminate.
      * rewrite match_here_plus in Hm.
        destruct (cls c) eqn:Hc; [|discriminate].
        assert (Hne : Ascii.eqb c sep = false).
        { destruct (Ascii.eqb_spec c sep) as [->|]; congruence. }
        destruct (match_here (Item cls Plus :: re) s) as [m1|] eqn:Hm1.
        -- injection Hm as <-. rewrite Count_cons, Hne. simpl. eauto.
        -- destruct (match_here re s) as [m'|] eqn:Hm'; [|discriminate].
           injection Hm as <-. rewrite Count_cons, Hne. simpl. eauto.
Qed.

Lemma FindString_Count sep re s :
  bounded sep re ->
  (Count (FindString re s) sep <= List.length (consumers sep re))%nat.
Proof.
  intros Hb. induction s as [|c s IH]; simpl.
  - destruct (match_here re EmptyString) as [m|] eqn:Hm.
    + eapply match_here_Count; eassumption.
    + simpl. lia.
  - destruct (match_here re (String c s)) as [m|] eqn:Hm.
    + eapply match_here_Count; eassumption.
    + exact IH.
Qed.

Lemma SplitAfter_length s sep :
  List.length (SplitAfter s sep) = S (Count s sep).
Proof.
  induction s as [|c s IH]; simpl; [reflexivity|].
  destruct (Ascii.eqb c sep); simpl.
  - rewrite IH. reflexivity.
  - destruct (SplitAfter s sep); simpl in *; lia.
Qed.

End RegexpFacts.

(* ===================================================================== *)
(** * Deployment process: identifiers                                    *)
(* ===================================================================== *)

Section GitRef.
Import GoRegexp Terraform DeploymentProcess.

Lemma reGitRef_bounded : bounded "-" reGitRef.
Proof. repeat constructor; simpl; intros; try discriminate; reflexivity. Qed.

Lemma reGitRef_consumers : List.length (consumers "-" reGitRef) = 1%nat.
Proof. reflexivity. Qed.

(** A match of [\d+-\w+] has one hyphen, so [SplitAfter] cuts it in two
    pieces and the test [len(parts) > 2] never holds. *)
Lemma getGitRef_always_empty (d : ResourceData) : getGitRef d = EmptyString.
Proof.
  unfold getGitRef.
  pose proof (FindString_Count "-" reGitRef (Id d) reGitRef_bounded) as H.
  rewrite reGitRef_consumers in H.
  rewrite SplitAfter_length.
  destruct (Nat.ltb_spec 2 (S (GoStrings.Count (GoRegexp.FindString reGitRef (Id d)) "-")));
    [lia | reflexivity].
Qed.

End GitRef.

(* ===================================================================== *)
(** * Deployment process: handlers                                       *)
(* ===================================================================== *)

(** Unfolds a handler run down to the client responses. *)
Ltac unfold_run :=
  unfold Handler.run, Handler.orFromErr, Handler.call, Handler.modifyData,
    Handler.getData, Handler.return_, Handler.assert, mbind, mret,
    Handler.M_bind, Handler.M_ret, Handler.bind, Handler.ret in *;
  cbn beta iota zeta delta [Handler.data Handler.world Handler.remote
                            Handler.calls fst snd] in *.

Section DeploymentProcessHandlers.
Import Terraform Handler DeploymentProcess.
Context {R : Type}.
Variable m : Client R.
Variable expandDeploymentProcess : ResourceData -> DeploymentProcess.
Variable setDeploymentProcess :
  ResourceData -> DeploymentProcess -> ResourceData * option error.
Variable ProcessApiError :
  ResourceData -> error -> string -> Diagnostics * ResourceData.

(** C4.  After a successful Create the identifier is
    ["deploymentprocess-" + ProjectID + "-" + branch] when the project
    is version-controlled, with the project ID of the process the server
    returned and the configured branch; otherwise it is the identifier
    of the returned process. *)
Theorem create_identifier (d d' : ResourceData) (w w' : World Call R)
    (branch : string) :
  Get d "branch" = VString branch ->
  Branch (expandDeploymentProcess d) = branch ->
  run (resourceDeploymentProcessCreate m expandDeploymentProcess
         setDeploymentProcess) d w = (Some [], d', w') ->
  exists project created,
    (exists r, Projects_GetByID m (ProjectID (expandDeploymentProcess d))
                 (remote w) = (Ok project, r)) /\
    (exists payload r r',
        DeploymentProcesses_Update m payload r = (Ok created, r') /\
        last (calls w') = Some (DeploymentProcessesUpdate payload)) /\
    Id d' =
      if isVersionControlled project
      then "deploymentprocess-" ++ ProjectID created ++ "-" ++ branch
      else GetID created.
Proof.
  intros _ Hexp Hrun.
  unfold resourceDeploymentProcessCreate, projectsGetByID,
    deploymentProcessesGet, deploymentProcessesGetByID,
    deploymentProcessesUpdate, setOrFromErr in Hrun.
  unfold_run.
  destruct (Projects_GetByID m _ (remote w)) as [[project|e] r0] eqn:Hp;
    [|discriminate].
  exists project. unfold_run.
  destruct (isVersionControlled project) eqn:Hvc; unfold_run.
  - destruct (DeploymentProcesses_Get m project _ r0) as [[current|e] r1] eqn:Hc;
      [|discriminate].
    unfold_run.
    destruct (DeploymentProcesses_Update m _ r1) as [[created|e] r2] eqn:Hu;
      [|discriminate].
    unfold_run.
    destruct (setDeploymentProcess d created) as [d1 [e|]] eqn:Hs;
      [discriminate|].
    injection Hrun as <- <-. exists created. split; [eauto|]. split.
    + do 3 eexists. split; [exact Hu|]. cbn. rewrite last_snoc. reflexivity.
    + cbn. rewrite Hexp. reflexivity.
  - destruct (DeploymentProcesses_GetByID m _ r0) as [[current|e] r1] eqn:Hc;
      [|discriminate].
    unfold_run.
    destruct (DeploymentProcesses_Update m _ r1) as [[created|e] r2] eqn:Hu;
      [|discriminate].
    unfold_run.
    destruct (setDeploymentProcess d created) as [d1 [e|]] eqn:Hs;
      [discriminate|].
    injection Hrun as <- <-. exists created. split; [eauto|]. split.
    + do 3 eexists. split; [exact Hu|]. cbn. rewrite last_snoc. reflexivity.
    + reflexivity.
Qed.

(** C5.  A successful Delete issues lookups and one Update, nothing
    else: the direct lookup, and when that fails the project lookup and
    the lookup by project and git ref.  The Update carries the local
    identifier, and the links and version of the entity found; every
    other field is empty.  The remote is left as that Update leaves it
    and the local identifier is cleared. *)
Theorem delete_resets_process (d d' : ResourceData) (w w' : World Call R) :
  run (resourceDeploymentProcessDelete m) d w = (Some [], d', w') ->
  d' = SetId EmptyString d /\ Id d' = EmptyString /\
  exists current lookups r updated,
    let payload :=
      {| ID := Id d; Links := Links current; Branch := EmptyString;
         LastSnapshotID := EmptyString; ProjectID := EmptyString;
         SpaceID := EmptyString; Steps := []; Version := Version current |} in
    calls w' = (calls w ++ lookups ++ [DeploymentProcessesUpdate payload])%list /\
    DeploymentProcesses_Update m payload r = (Ok updated, remote w') /\
    ((lookups = [DeploymentProcessesGetByID (Id d)] /\
      DeploymentProcesses_GetByID m (Id d) (remote w) = (Ok current, r))
     \/
     (exists e r0 project r1,
        let projectID := GoRegexp.FindString reProjectID (Id d) in
        DeploymentProcesses_GetByID m (Id d) (remote w) = (Err e, r0) /\
        Projects_GetByID m projectID r0 = (Ok project, r1) /\
        DeploymentProcesses_Get m project (getGitRef d) r1 = (Ok current, r) /\
        lookups = [DeploymentProcessesGetByID (Id d);
                   ProjectsGetByID projectID;
                   DeploymentProcessesGet project (getGitRef d)])).
Proof.
  intros Hrun.
  unfold resourceDeploymentProcessDelete, projectsGetByID,
    deploymentProcessesGet, deploymentProcessesGetByID,
    deploymentProcessesUpdate in Hrun.
  unfold_run.
  destruct (DeploymentProcesses_GetByID m _ (remote w)) as [[current|e] r0] eqn:Hg;
    unfold_run.
  - destruct (DeploymentProcesses_Update m _ r0) as [[updated|e] r1] eqn:Hu;
      [|discriminate].
    unfold_run. injection Hrun as <- <-.
    split; [reflexivity|]. split; [reflexivity|].
    exists current, [DeploymentProcessesGetByID (Id d)], r0, updated.
    cbn. rewrite <- app_assoc. auto.
  - destruct (Projects_GetByID m _ r0) as [[project|e'] r1] eqn:Hp;
      [|discriminate].
    unfold_run.
    destruct (DeploymentProcesses_Get m project _ r1) as [[current|e'] r2] eqn:Hc;
      [|discriminate].
    unfold_run.
    destruct (DeploymentProcesses_Update m _ r2) as [[updated|e'] r3] eqn:Hu;
      [|discriminate].
    unfold_run. injection Hrun as <- <-.
    split; [reflexivity|]. split; [reflexivity|].
    exists current,
      [DeploymentProcessesGetByID (Id d);
       ProjectsGetByID (GoRegexp.FindString reProjectID (Id d));
       DeploymentProcessesGet project (getGitRef d)], r2, updated.
    cbn. rewrite <- !app_assoc. split; [reflexivity|]. split; [exact Hu|].
    right. exists e, r0, project, r1. auto.
Qed.

(** C6.  When the direct lookup fails, the project resolves and the
    lookup by project and git ref fails too, Read clears the identifier
    and returns no diagnostic. *)
Theorem read_not_found_drops_record (d : ResourceData) (w : World Call R)
    (e1 e2 : error) (project : Project) (r1 r2 r3 : R) :
  let projectID := GoRegexp.FindString reProjectID (Id d) in
  DeploymentProcesses_GetByID m (Id d) (remote w) = (Err e1, r1) ->
  Projects_GetByID m projectID r1 = (Ok project, r2) ->
  DeploymentProcesses_Get m project (getGitRef d) r2 = (Err e2, r3) ->
  run (resourceDeploymentProcessRead m setDeploymentProcess ProcessApiError) d w
  = (Some [], SetId EmptyString d,
     {| remote := r3;
        calls := (calls w ++ [DeploymentProcessesGetByID (Id d);
                              ProjectsGetByID projectID;
                              DeploymentProcessesGet project (getGitRef d)])%list |}).
Proof.
  intros projectID Hg Hp Hc.
  unfold resourceDeploymentProcessRead, DeleteFromState, projectsGetByID,
    deploymentProcessesGet, deploymentProcessesGetByID.
  unfold_run. rewrite Hg. unfold_run.
  fold projectID. rewrite Hp. unfold_run. rewrite Hc. unfold_run.
  rewrite <- !app_assoc. reflexivity.
Qed.

(** The guard of Update on a changed branch never holds. *)
Lemma update_branch_guard (d : ResourceData) (deploymentProcess : DeploymentProcess) :
  negb (String.eqb (Branch deploymentProcess) (getGitRef d))
  && negb (String.eqb (getGitRef d) EmptyString) = false.
Proof. rewrite getGitRef_always_empty. apply andb_false_r. Qed.

End DeploymentProcessHandlers.

Section DeploymentProcessScenarios.
Import Terraform Handler DeploymentProcess.

(** With the git ref never recovered, a changed branch goes through.
    The resource was created on branch [main] of the version-controlled
    project [Projects-123]; the configuration now names branch [dev].
    The direct lookup fails and the project resolves, and Update
    returns no diagnostic: it renames the resource to the [dev]
    identifier and submits the process to the API. *)
Example update_accepts_branch_change :
  let d := Scenario.DP.config "deploymentprocess-Projects-123-main"
             "Projects-123" "dev" in
  exists d' w' payload,
    run (resourceDeploymentProcessUpdate Scenario.DP.client Scenario.DP.expand
           Scenario.DP.set) d Scenario.DP.world = (Some [], d', w') /\
    Id d' = "deploymentprocess-Projects-123-dev" /\
    calls w' =
      [DeploymentProcessesGetByID "deploymentprocess-Projects-123-main";
       ProjectsGetByID "Projects-123";
       DeploymentProcessesGet Scenario.DP.project123 "dev";
       DeploymentProcessesUpdate payload] /\
    Branch payload = "dev".
Proof.
  do 3 eexists. split; [vm_compute; reflexivity|].
  split; [reflexivity|]. split; reflexivity.
Qed.

(** C2.  On the identifier [deploymentprocess-Projects-123-main] the
    pattern matches [123-main], which splits in the two pieces [123-]
    and [main]; two pieces fail the length test and the result is
    empty, not [main]. *)
Theorem getGitRef_composite_identifier :
  let d := Scenario.DP.config "deploymentprocess-Projects-123-main"
             "Projects-123" "main" in
  GoRegexp.FindString reGitRef (Id d) = "123-main" /\
  GoStrings.SplitAfter "123-main" "-" = ["123-"; "main"] /\
  getGitRef d = EmptyString /\
  getGitRef d <> "main".
Proof. repeat split; try reflexivity. discriminate. Qed.

End DeploymentProcessScenarios.

(* ===================================================================== *)
(** * Validation of the trigger enumerations                             *)
(* ===================================================================== *)

Section Validation.
Import Terraform Util.

Lemma sliceContains_In (slice : list string) (v : string) :
  sliceContains slice v = true <-> In v slice.
Proof.
  unfold sliceContains. rewrite existsb_exists. split.
  - intros (x & Hx & Heq). apply String.eqb_eq in Heq. congruence.
  - intros Hin. exists v. split; [assumption | apply String.eqb_refl].
Qed.

(** What the validator reports: an offending member of the given values,
    or that there is none. *)
Lemma validateAllSliceItemsInSlice_spec (givenSlice validationSlice : list string) :
  match validateAllSliceItemsInSlice givenSlice validationSlice with
  | (v, false) => In v givenSlice /\ ~ In v validationSlice
  | (v, true) => v = EmptyString /\ forall x, In x givenSlice -> In x validationSlice
  end.
Proof.
  induction givenSlice as [|x l IH]; simpl.
  - split; [reflexivity | intros ? []].
  - destruct (sliceContains validationSlice x) eqn:Hx.
    + destruct (validateAllSliceItemsInSlice l validationSlice) as [v []].
      * destruct IH as [-> IH]. split; [reflexivity|].
        intros y [<-|Hy]; [apply sliceContains_In; assumption | auto].
      * destruct IH as [Hin Hout]. auto.
    + split; [auto|]. rewrite <- sliceContains_In. congruence.
Qed.

Lemma getSliceFromTerraformTypeList_strings (l : list string) :
  getSliceFromTerraformTypeList (VList (VString <$> l)) = l.
Proof.
  simpl. induction l as [|x l IH]; [reflexivity|].
  cbn. cbn in IH. rewrite IH. reflexivity.
Qed.

Lemma GetOk_strings (d : ResourceData) (key : string) (l : list string) :
  Get d key = VList (VString <$> l) ->
  GetOk d key = (VList (VString <$> l), match l with [] => false | _ => true end).
Proof. unfold GetOk. intros ->. destruct l; reflexivity. Qed.

Lemma Contains_middle (pre v post : string) :
  GoStrings.Contains (pre ++ v ++ post) v.
Proof. exists pre, post. reflexivity. Qed.

End Validation.

(* ===================================================================== *)
(** * Project triggers: handlers                                         *)
(* ===================================================================== *)

Section TriggerHandlers.
Import Terraform Handler Util Trigger.
Context {R : Type}.
Variable m : Client R.
Variable isEmpty : string -> bool.

(** The builder on a well-typed configuration, with the two validations
    spelled out. *)
Lemma build_invalid_event_group (d : ResourceData)
    (name projectID : string) (shouldRedeploy : bool)
    (groups : list string) (v : string) :
  Get d "name" = VString name ->
  Get d "project_id" = VString projectID ->
  Get d "should_redeploy" = VBool shouldRedeploy ->
  Get d "event_groups" = VList (VString <$> groups) ->
  validateAllSliceItemsInSlice groups validEventGroups = (v, false) ->
  buildProjectDeploymentTargetTriggerResource d
  = Some (Err ("Invalid value for event_groups. " ++ v ++ " not in "
               ++ fmt_v validEventGroups)).
Proof.
  intros Hn Hp Hs Hg Hv.
  unfold buildProjectDeploymentTargetTriggerResource.
  rewrite Hn, Hp, Hs. cbn [as_string as_bool mbind option_bind].
  rewrite (GetOk_strings _ _ _ Hg).
  destruct groups as [|g groups]; [discriminate|].
  rewrite getSliceFromTerraformTypeList_strings, Hv. reflexivity.
Qed.

Lemma build_invalid_event_category (d : ResourceData)
    (name projectID : string) (shouldRedeploy : bool)
    (groups cats : list string) (v : string) :
  Get d "name" = VString name ->
  Get d "project_id" = VString projectID ->
  Get d "should_redeploy" = VBool shouldRedeploy ->
  Get d "event_groups" = VList (VString <$> groups) ->
  Get d "event_categories" = VList (VString <$> cats) ->
  (forall x, In x groups -> In x validEventGroups) ->
  validateAllSliceItemsInSlice cats validEventCategories = (v, false) ->
  buildProjectDeploymentTargetTriggerResource d
  = Some (Err ("Invalid value for event_categories. " ++ v ++ " not in "
               ++ fmt_v validEventCategories)).
Proof.
  intros Hn Hp Hs Hg Hc Hok Hv.
  unfold buildProjectDeploymentTargetTriggerResource.
  rewrite Hn, Hp, Hs. cbn [as_string as_bool mbind option_bind].
  rewrite (GetOk_strings _ _ _ Hg), (GetOk_strings _ _ _ Hc).
  assert (Hcats : match cats with [] => false | _ => true end = true).
  { destruct cats; [discriminate | reflexivity]. }
  rewrite Hcats, !getSliceFromTerraformTypeList_strings, Hv.
  pose proof (validateAllSliceItemsInSlice_spec groups validEventGroups) as Hspec.
  destruct (validateAllSliceItemsInSlice groups validEventGroups) as [g [|]].
  - destruct groups; reflexivity.
  - destruct Hspec as [Hin Hout]. destruct (Hout (Hok _ Hin)).
Qed.

Lemma create_build_error (d : ResourceData) (w : World Call R) (msg : error) :
  buildProjectDeploymentTargetTriggerResource d = Some (Err msg) ->
  run (resourceProjectDeploymentTargetTriggerCreate m isEmpty) d w
  = (Some (FromErr msg), d, w).
Proof.
  intros Hb. unfold resourceProjectDeploymentTargetTriggerCreate.
  unfold_run. rewrite Hb. destruct w. reflexivity.
Qed.

Lemma update_build_error (d : ResourceData) (w : World Call R) (msg : error) :
  buildProjectDeploymentTargetTriggerResource d = Some (Err msg) ->
  run (resourceProjectDeploymentTargetTriggerUpdate m) d w
  = (Some (FromErr msg), d, w).
Proof.
  intros Hb. unfold resourceProjectDeploymentTargetTriggerUpdate.
  unfold_run. rewrite Hb. destruct w. reflexivity.
Qed.

(** C3.  When [event_groups] or [event_categories] holds a value outside
    its enumeration, the builder returns an error whose message contains
    an offending value, and Create and Update return that error as their
    diagnostic with the resource data and the world (remote state and
    calls issued) untouched. *)
Theorem trigger_invalid_enum_rejected (d : ResourceData) (w : World Call R)
    (name projectID : string) (shouldRedeploy : bool)
    (groups cats : list string) :
  Get d "name" = VString name ->
  Get d "project_id" = VString projectID ->
  Get d "should_redeploy" = VBool shouldRedeploy ->
  Get d "event_groups" = VList (VString <$> groups) ->
  Get d "event_categories" = VList (VString <$> cats) ->
  (exists v, In v groups /\ ~ In v validEventGroups) \/
  (exists v, In v cats /\ ~ In v validEventCategories) ->
  exists v msg,
    ((In v groups /\ ~ In v validEventGroups) \/
     (In v cats /\ ~ In v validEventCategories)) /\
    buildProjectDeploymentTargetTriggerResource d = Some (Err msg) /\
    GoStrings.Contains msg v /\
    run (resourceProjectDeploymentTargetTriggerCreate m isEmpty) d w
    = (Some (FromErr msg), d, w) /\
    run (resourceProjectDeploymentTargetTriggerUpdate m) d w
    = (Some (FromErr msg), d, w).
Proof.
  intros Hn Hp Hs Hg Hc Hbad.
  pose proof (validateAllSliceItemsInSlice_spec groups validEventGroups) as Hgs.
  destruct (validateAllSliceItemsInSlice groups validEventGroups) as [g [|]] eqn:Hvg.
  - destruct Hgs as [_ Hall].
    destruct Hbad as [(v & Hin & Hout)|(v & Hin & Hout)]; [destruct (Hout (Hall _ Hin))|].
    pose proof (validateAllSliceItemsInSlice_spec cats validEventCategories) as Hcs.
    destruct (validateAllSliceItemsInSlice cats validEventCategories) as [c [|]] eqn:Hvc.
    + destruct Hcs as [_ Hallc]. destruct (Hout (Hallc _ Hin)).
    + pose proof (build_invalid_event_category d _ _ _ _ _ _ Hn Hp Hs Hg Hc Hall Hvc) as Hb.
      eexists c, _. split; [right; exact Hcs|]. split; [exact Hb|].
      split; [apply Contains_middle|].
      split; [apply create_build_error | apply update_build_error]; exact Hb.
  - pose proof (build_invalid_event_group d _ _ _ _ _ Hn Hp Hs Hg Hvg) as Hb.
    eexists g, _. split; [left; exact Hgs|]. split; [exact Hb|].
    split; [apply Contains_middle|].
    split; [apply create_build_error | apply update_build_error]; exact Hb.
Qed.

(** The branch of Read for a nil result: when the client returns
    neither a trigger nor an error, Read clears the identifier and
    returns no diagnostic. *)
Lemma trigger_read_nil_resource (d : ResourceData) (w : World Call R) (r : R) :
  ProjectTriggers_GetByID m (Id d) (remote w) = (Ok None, r) ->
  run (resourceProjectDeploymentTargetTriggerRead m) d w
  = (Some [], SetId EmptyString d,
     {| remote := r; calls := (calls w ++ [ProjectTriggersGetByID (Id d)])%list |}).
Proof.
  intros Hg. unfold resourceProjectDeploymentTargetTriggerRead.
  unfold_run. rewrite Hg. reflexivity.
Qed.

End TriggerHandlers.

Section TriggerScenarios.
Import Terraform Handler Trigger.

(** C9.  A trigger the server does not hold, read through a client that
    reports it as an error: Read returns that error as its diagnostic
    and leaves the resource data, identifier included, as it was.  The
    branch that clears the identifier is not reached. *)
Theorem trigger_read_missing_fails :
  let d := Scenario.Trig.config "ProjectTriggers-9" ["Machine"] [] in
  let res := run (resourceProjectDeploymentTargetTriggerRead Strict.client)
               d (Scenario.Trig.world ∅) in
  ProjectTriggers_GetByID Strict.client (Id d) ∅ = (Err "not found", ∅) /\
  res = (Some (FromErr "not found"), d,
         {| remote := ∅; calls := [ProjectTriggersGetByID "ProjectTriggers-9"] |}) /\
  Id res.1.2 = "ProjectTriggers-9" /\
  res.1.1 <> Some [].
Proof.
  cbv zeta. split; [reflexivity|]. split; [reflexivity|].
  split; [reflexivity | discriminate].
Qed.

End TriggerScenarios.

(* ===================================================================== *)
(** * Lifecycles: builder, flattener and handlers                        *)
(* ===================================================================== *)

Section LifecycleFacts.
Import Terraform Handler Util Lifecycle.

(** The retention period the builder reads never keeps for ever,
    whatever the block says. *)
Lemma getRetentionPeriod_ShouldKeepForever (d : ResourceData) (key : string)
    (r : RetentionPeriod) :
  getRetentionPeriod d key = Some (Some r) -> ShouldKeepForever r = false.
Proof.
  unfold getRetentionPeriod. destruct (GetOk d key) as [v [|]]; [|discriminate].
  destruct (as_list v) as [l|]; [|discriminate]. cbn [mbind option_bind].
  destruct (List.length l =? 1)%nat; [|discriminate].
  destruct (as_map (nth 0 l VNil)) as [item|]; [|discriminate]. cbn [mbind option_bind].
  destruct (as_string (index item constUnit)); [|discriminate]. cbn [mbind option_bind].
  destruct (as_int (index item constQuantityToKeep)); [|discriminate].
  cbn [mbind option_bind]. intros [= <-]. reflexivity.
Qed.

Context {R : Type}.

(** The loop over the phases leaves the attribute as its last iteration
    wrote it. *)
Lemma forEach_phase_last (ps : list Phase) (p : Phase) (s : State Call R) :
  forEach (ps ++ [p])%list
    (fun phase => modifyData (Set_ constPhase (flattenPhase phase))) s
  = (Value _ tt,
     {| data := Set_ constPhase (flattenPhase p)
                  (fold_left (fun d phase => Set_ constPhase (flattenPhase phase) d)
                             ps (data s));
        world := world s |}).
Proof.
  revert s. induction ps as [|q ps IH]; intros s.
  - destruct s. reflexivity.
  - cbn [app forEach]. unfold bind at 1. unfold modifyData at 1.
    rewrite IH. reflexivity.
Qed.

(** After [flattenLifecycle] of a lifecycle with at least one phase, the
    [phase] attribute holds the last phase alone. *)
Lemma flattenLifecycle_phase (lifecycle : Lifecycle) (ps : list Phase) (p : Phase)
    (s : State Call R) :
  Phases lifecycle = (ps ++ [p])%list ->
  Get (data (flattenLifecycle lifecycle s).2) constPhase = flattenPhase p.
Proof.
  intros Hps. unfold flattenLifecycle. rewrite Hps.
  unfold mbind, M_bind. unfold bind at 1. unfold modifyData at 1.
  unfold bind at 1. unfold modifyData at 1.
  unfold bind at 1. rewrite forEach_phase_last.
  unfold bind, modifyData. cbn [data snd].
  unfold Get, index, SetId, Set_. cbn [rd_attrs].
  rewrite !lookup_insert_ne by discriminate.
  rewrite lookup_insert_eq. reflexivity.
Qed.

End LifecycleFacts.

Section LifecycleScenarios.
Import Terraform Handler Util Lifecycle.

(** C7.  A configuration with the phases Test and Production, against a
    server that stores and returns what it is sent: Create and Read both
    succeed and the server holds both phases in order, but the state
    after Read has a [phase] list of one element, Production. *)
Theorem lifecycle_create_read_loses_phases :
  exists d1 w1 d2 w2 stored,
    run (resourceLifecycleCreate Scenario.LC.client Scenario.LC.newLifecycle)
      Scenario.LC.config (Scenario.LC.world ∅) = (Some [], d1, w1) /\
    run (resourceLifecycleRead Scenario.LC.client) d1 w1 = (Some [], d2, w2) /\
    remote w2 !! Id d2 = Some stored /\
    Phases stored = [Scenario.LC.phase "Test" ["Environments-1"];
                     Scenario.LC.phase "Production" ["Environments-2"]] /\
    Get Scenario.LC.config constPhase
      = VList [Scenario.LC.tfPhase "Test" ["Environments-1"];
               Scenario.LC.tfPhase "Production" ["Environments-2"]] /\
    Get d2 constPhase
      = flattenPhase (Scenario.LC.phase "Production" ["Environments-2"]) /\
    (length <$> as_list (Get d2 constPhase)) = Some 1%nat.
Proof.
  do 5 eexists.
  split; [vm_compute; reflexivity|].
  split; [vm_compute; reflexivity|].
  split; [vm_compute; reflexivity|].
  repeat split; vm_compute; reflexivity.
Qed.

(** C8.  The release retention block of the configuration sets
    [should_keep_forever]; the payload built from it, whatever the
    client library's constructor fills in, has the configured quantity
    and unit but [ShouldKeepForever] false. *)
Theorem lifecycle_build_drops_keep_forever (NewLifecycle : string -> Lifecycle) :
  exists block lifecycle,
    Get Scenario.LC.config constReleaseRetentionPolicy = VList [VMap block] /\
    index block constQuantityToKeep = VInt 5 /\
    index block constUnit = VString "Items" /\
    index block constShouldKeepForever = VBool true /\
    buildLifecycleResource NewLifecycle Scenario.LC.config = Some lifecycle /\
    ReleaseRetentionPolicy lifecycle
      = {| QuantityToKeep := 5; ShouldKeepForever := false; Unit := "Items" |}.
Proof.
  do 2 eexists.
  split; [vm_compute; reflexivity|].
  split; [reflexivity|]. split; [reflexivity|]. split; [reflexivity|].
  split; [vm_compute; reflexivity|]. reflexivity.
Qed.

End LifecycleScenarios.

(* ===================================================================== *)
(** * Delete of triggers and lifecycles                                  *)
(* ===================================================================== *)

Section DeleteByID.
Import Terraform Handler.
Context {Rt Rl : Type}.
Variable mt : Trigger.Client Rt.
Variable ml : Lifecycle.Client Rl.

(** C10.  In both Delete handlers an error of [DeleteByID] is returned
    as the diagnostic and the resource data is left as it was; only when
    [DeleteByID] succeeds is the identifier cleared. *)
Theorem delete_by_id_atomic (d : ResourceData)
    (wt : World Trigger.Call Rt) (wl : World Lifecycle.Call Rl) :
  (forall e r,
      Trigger.ProjectTriggers_DeleteByID mt (Id d) (remote wt) = (Some e, r) ->
      run (Trigger.resourceProjectDeploymentTargetTriggerDelete mt) d wt
      = (Some (FromErr e), d,
         {| remote := r;
            calls := (calls wt ++ [Trigger.ProjectTriggersDeleteByID (Id d)])%list |}))
  /\
  (forall r,
      Trigger.ProjectTriggers_DeleteByID mt (Id d) (remote wt) = (None, r) ->
      run (Trigger.resourceProjectDeploymentTargetTriggerDelete mt) d wt
      = (Some [], SetId EmptyString d,
         {| remote := r;
            calls := (calls wt ++ [Trigger.ProjectTriggersDeleteByID (Id d)])%list |}))
  /\
  (forall e r,
      Lifecycle.Lifecycles_DeleteByID ml (Id d) (remote wl) = (Some e, r) ->
      run (Lifecycle.resourceLifecycleDelete ml) d wl
      = (Some (FromErr e), d,
         {| remote := r;
            calls := (calls wl ++ [Lifecycle.LifecyclesDeleteByID (Id d)])%list |}))
  /\
  (forall r,
      Lifecycle.Lifecycles_DeleteByID ml (Id d) (remote wl) = (None, r) ->
      run (Lifecycle.resourceLifecycleDelete ml) d wl
      = (Some [], SetId EmptyString d,
         {| remote := r;
            calls := (calls wl ++ [Lifecycle.LifecyclesDeleteByID (Id d)])%list |})).
Proof.
  unfold Trigger.resourceProjectDeploymentTargetTriggerDelete,
    Lifecycle.resourceLifecycleDelete.
  repeat split; intros; unfold_run;
    match goal with H : _ = (_, _) |- _ => rewrite H end; reflexivity.
Qed.

End DeleteByID.

(* ===================================================================== *)
(** * The theorems at work on the concrete remotes                       *)
(* ===================================================================== *)

Section Witnesses.
Import Terraform Handler.

Example findString_gitref :
  GoRegexp.FindString DeploymentProcess.reGitRef
    "deploymentprocess-Projects-123-main" = "123-main".
Proof. reflexivity. Qed.

Example findString_project :
  GoRegexp.FindString DeploymentProcess.reProjectID
    "deploymentprocess-Projects-123-main" = "Projects-123".
Proof. reflexivity. Qed.

Example splitAfter_trailing : GoStrings.SplitAfter "a-b-" "-" = ["a-"; "b-"; EmptyString].
Proof. reflexivity. Qed.

(** Create on the version-controlled project [Projects-123], branch
    [main]. *)
Lemma create_identifier_witness :
  let d := Scenario.DP.config EmptyString "Projects-123" "main" in
  let res :=
    run (DeploymentProcess.resourceDeploymentProcessCreate Scenario.DP.client
           Scenario.DP.expand Scenario.DP.set) d Scenario.DP.world in
  res.1.1 = Some [] /\
  exists project created,
    (exists r, DeploymentProcess.Projects_GetByID Scenario.DP.client
                 (DeploymentProcess.ProjectID (Scenario.DP.expand d))
                 (remote Scenario.DP.world) = (Ok project, r)) /\
    (exists payload r r',
        DeploymentProcess.DeploymentProcesses_Update Scenario.DP.client payload r
        = (Ok created, r') /\
        last (calls res.2) = Some (DeploymentProcess.DeploymentProcessesUpdate payload)) /\
    Id res.1.2 =
      if DeploymentProcess.isVersionControlled project
      then "deploymentprocess-" ++ DeploymentProcess.ProjectID created ++ "-" ++ "main"
      else DeploymentProcess.GetID created.
Proof.
  intros d res. split; [reflexivity|].
  apply (create_identifier Scenario.DP.client Scenario.DP.expand Scenario.DP.set
           d res.1.2 Scenario.DP.world res.2 "main");
    reflexivity.
Defined.

Example create_version_controlled :
  Id (run (DeploymentProcess.resourceDeploymentProcessCreate Scenario.DP.client
             Scenario.DP.expand Scenario.DP.set)
        (Scenario.DP.config EmptyString "Projects-123" "main")
        Scenario.DP.world).1.2
  = "deploymentprocess-Projects-123-main".
Proof. reflexivity. Qed.

Example create_database :
  Id (run (DeploymentProcess.resourceDeploymentProcessCreate Scenario.DP.client
             Scenario.DP.expand Scenario.DP.set)
        (Scenario.DP.config EmptyString "Projects-7" EmptyString)
        Scenario.DP.world).1.2
  = "deploymentprocess-Projects-7".
Proof. reflexivity. Qed.

(** Delete of the process of the database project [Projects-7]. *)
Lemma delete_resets_process_witness :
  let d := Scenario.DP.config "deploymentprocess-Projects-7" "Projects-7" EmptyString in
  let res :=
    run (DeploymentProcess.resourceDeploymentProcessDelete Scenario.DP.client)
      d Scenario.DP.world in
  res.1.1 = Some [] /\ res.1.2 = SetId EmptyString d /\ Id res.1.2 = EmptyString.
Proof.
  intros d res. split; [reflexivity|].
  pose proof (delete_resets_process Scenario.DP.client d res.1.2
                Scenario.DP.world res.2 eq_refl) as (Hd & Hid & _).
  split; assumption.
Defined.

(** After that Delete the server still answers the direct lookup, with
    a process without steps. *)
Example delete_keeps_remote_entity :
  let d := Scenario.DP.config "deploymentprocess-Projects-7" "Projects-7" EmptyString in
  let res :=
    run (DeploymentProcess.resourceDeploymentProcessDelete Scenario.DP.client)
      d Scenario.DP.world in
  exists p r,
    DeploymentProcess.DeploymentProcesses_GetByID Scenario.DP.client
      "deploymentprocess-Projects-7" (remote res.2) = (Ok p, r) /\
    DeploymentProcess.Steps p = [].
Proof. do 2 eexists. split; reflexivity. Qed.

(** Read of a record whose identifier the server no longer knows. *)
Lemma read_not_found_drops_record_witness :
  let d := Scenario.DP.config "deploymentprocess-Projects-123-main"
             "Projects-123" "main" in
  run (DeploymentProcess.resourceDeploymentProcessRead Scenario.DP.client
         Scenario.DP.set Scenario.DP.processApiError) d Scenario.DP.world
  = (Some [], SetId EmptyString d,
     {| remote := Scenario.DP.server;
        calls :=
          [DeploymentProcess.DeploymentProcessesGetByID
             "deploymentprocess-Projects-123-main";
           DeploymentProcess.ProjectsGetByID "Projects-123";
           DeploymentProcess.DeploymentProcessesGet Scenario.DP.project123
             EmptyString] |}).
Proof.
  intros d.
  exact (read_not_found_drops_record Scenario.DP.client Scenario.DP.set
           Scenario.DP.processApiError d Scenario.DP.world
           "not found" "not found" Scenario.DP.project123
           Scenario.DP.server Scenario.DP.server Scenario.DP.server
           eq_refl eq_refl eq_refl).
Defined.

(** A trigger configuration with the event group [BadValue]. *)
Lemma trigger_invalid_enum_rejected_witness :
  let d := Scenario.Trig.config EmptyString ["Machine"; "BadValue"] [] in
  let w := Scenario.Trig.world ∅ in
  exists v msg,
    ((In v ["Machine"; "BadValue"] /\ ~ In v Trigger.validEventGroups) \/
     (In v [] /\ ~ In v Trigger.validEventCategories)) /\
    Trigger.buildProjectDeploymentTargetTriggerResource d = Some (Err msg) /\
    GoStrings.Contains msg v /\
    run (Trigger.resourceProjectDeploymentTargetTriggerCreate Scenario.Trig.client
           Scenario.Trig.isEmpty) d w = (Some (FromErr msg), d, w) /\
    run (Trigger.resourceProjectDeploymentTargetTriggerUpdate Scenario.Trig.client) d w
    = (Some (FromErr msg), d, w).
Proof.
  intros d w.
  apply (trigger_invalid_enum_rejected Scenario.Trig.client Scenario.Trig.isEmpty
           d w "redeploy" "Projects-1" true ["Machine"; "BadValue"] []);
    try reflexivity.
  left. exists "BadValue". split.
  - right. left. reflexivity.
  - intros H. repeat (destruct H as [H|H]; [discriminate H|]). exact H.
Defined.

Example trigger_bad_value_message :
  Trigger.buildProjectDeploymentTargetTriggerResource
    (Scenario.Trig.config EmptyString ["Machine"; "BadValue"] [])
  = Some (Err "Invalid value for event_groups. BadValue not in [Machine MachineCritical MachineAvailableForDeployment MachineUnavailableForDeployment MachineHealthChanged]").
Proof. reflexivity. Qed.

(** Read of a trigger the server does not hold, through a client that
    answers with a nil result. *)
Example trigger_read_nil_resource_example :
  let d := Scenario.Trig.config "ProjectTriggers-9" ["Machine"] [] in
  run (Trigger.resourceProjectDeploymentTargetTriggerRead Scenario.Trig.client)
    d (Scenario.Trig.world ∅)
  = (Some [], SetId EmptyString d,
     {| remote := ∅; calls := [Trigger.ProjectTriggersGetByID "ProjectTriggers-9"] |}).
Proof.
  intros d.
  exact (trigger_read_nil_resource Scenario.Trig.client d (Scenario.Trig.world ∅) ∅
           eq_refl).
Qed.

(** Delete of a trigger the server holds, and of a lifecycle it does
    not. *)
Lemma delete_by_id_atomic_witness :
  let d := Scenario.Trig.config "ProjectTriggers-1" ["Machine"] [] in
  let wt := Scenario.Trig.world {["ProjectTriggers-1" := Scenario.Trig.existing]} in
  let wl := Scenario.LC.world ∅ in
  run (Trigger.resourceProjectDeploymentTargetTriggerDelete Scenario.Trig.client) d wt
  = (Some [], SetId EmptyString d,
     {| remote := delete "ProjectTriggers-1" (remote wt);
        calls := [Trigger.ProjectTriggersDeleteByID "ProjectTriggers-1"] |})
  /\
  run (Lifecycle.resourceLifecycleDelete Scenario.LC.client) d wl
  = (Some (FromErr "not found"), d,
     {| remote := ∅;
        calls := [Lifecycle.LifecyclesDeleteByID "ProjectTriggers-1"] |}).
Proof.
  intros d wt wl.
  destruct (delete_by_id_atomic Scenario.Trig.client Scenario.LC.client d wt wl)
    as (_ & Hok & Herr & _).
  split.
  - exact (Hok _ eq_refl).
  - exact (Herr _ _ eq_refl).
Defined.

End Witnesses.

(* ===================================================================== *)
(** * Deployment process: the project ID in the identifier               *)
(* ===================================================================== *)

Section ProjectIDRoundTrip.
Import GoRegexp Shape DeploymentProcess.

Lemma append_nil (s : string) : EmptyString ++ s = s.
Proof. reflexivity. Qed.

Lemma append_cons (c : ascii) (s t : string) :
  String c s ++ t = String c (s ++ t).
Proof. reflexivity. Qed.

Lemma match_here_literal (l : string) (re : regexp) (s : string) :
  match_here (literal l ++ re)%list (l ++ s)
  = (fun m => l ++ m) <$> match_here re s.
Proof.
  induction l as [|c l IH]; cbn [literal app].
  - rewrite append_nil. destruct (match_here re s); reflexivity.
  - unfold lit. rewrite append_cons, match_here_one, Ascii.eqb_refl, IH.
    destruct (match_here re s); reflexivity.
Qed.

(** A run of digits followed by a byte that is not a digit: [\d+] takes
    the whole run. *)
Lemma match_here_digits (ds : string) (c : ascii) (rest : string) :
  ds <> EmptyString -> all is_digit ds = true -> is_digit c = false ->
  match_here [Item is_digit Plus] (ds ++ String c rest) = Some ds.
Proof.
  intros Hne Hds Hc. induction ds as [|a ds IH]; [congruence|].
  simpl in Hds. apply andb_prop in Hds as [Ha Hds].
  rewrite append_cons, match_here_plus, Ha.
  destruct ds as [|b ds].
  - rewrite append_nil, match_here_plus, Hc. reflexivity.
  - rewrite IH by (congruence || assumption). reflexivity.
Qed.

Lemma FindString_skip cls q re (c : ascii) (s : string) :
  cls c = false ->
  FindString (Item cls q :: re) (String c s) = FindString (Item cls q :: re) s.
Proof.
  intros Hc. cbn [FindString].
  destruct q.
  - rewrite match_here_one, Hc. reflexivity.
  - rewrite match_here_plus, Hc. reflexivity.
Qed.

Lemma FindString_here re (s m : string) :
  match_here re s = Some m -> FindString re s = m.
Proof. intros H. destruct s; simpl; rewrite H; reflexivity. Qed.

(** X1.  The pattern [Projects-\d+] recovers the project ID from the
    composite identifier: for a project ID ["Projects-" + digits] and any
    branch, the leftmost match in
    ["deploymentprocess-" + projectID + "-" + branch] is the project
    ID. *)
Theorem projectID_of_compositeID (ds branch : string) :
  ds <> EmptyString -> all is_digit ds = true ->
  FindString reProjectID (compositeID ("Projects-" ++ ds) branch)
  = "Projects-" ++ ds.
Proof.
  intros Hne Hds. unfold compositeID, reProjectID.
  rewrite !append_cons, !append_nil. cbn [literal app]. unfold lit.
  do 18 (rewrite FindString_skip by reflexivity).
  apply FindString_here.
  change (match_here (literal "Projects-" ++ [Item is_digit Plus])%list
            ("Projects-" ++ (ds ++ String "-" branch))
          = Some ("Projects-" ++ ds)).
  rewrite match_here_literal, match_here_digits by (assumption || reflexivity).
  reflexivity.
Qed.

End ProjectIDRoundTrip.

(* ===================================================================== *)
(** * Deployment process: what the handlers do on every path             *)
(* ===================================================================== *)

(** Case analysis on the next client response or helper result a run
    depends on. *)
Ltac case_response :=
  unfold_run;
  match goal with
  | |- context [DeploymentProcess.DeploymentProcesses_GetByID ?m ?i ?r] =>
      destruct (DeploymentProcess.DeploymentProcesses_GetByID m i r)
        as [[?|?] ?] eqn:?
  | |- context [DeploymentProcess.Projects_GetByID ?m ?i ?r] =>
      destruct (DeploymentProcess.Projects_GetByID m i r) as [[?|?] ?] eqn:?
  | |- context [DeploymentProcess.DeploymentProcesses_Get ?m ?p ?g ?r] =>
      destruct (DeploymentProcess.DeploymentProcesses_Get m p g r)
        as [[?|?] ?] eqn:?
  | |- context [DeploymentProcess.DeploymentProcesses_Update ?m ?p ?r] =>
      destruct (DeploymentProcess.DeploymentProcesses_Update m p r)
        as [[?|?] ?] eqn:?
  | |- context [DeploymentProcess.isVersionControlled ?p] =>
      destruct (DeploymentProcess.isVersionControlled p) eqn:?
  end.

Ltac unfold_handlers :=
  unfold DeploymentProcess.resourceDeploymentProcessCreate,
    DeploymentProcess.resourceDeploymentProcessRead,
    DeploymentProcess.resourceDeploymentProcessUpdate,
    DeploymentProcess.resourceDeploymentProcessDelete,
    DeploymentProcess.DeleteFromState,
    DeploymentProcess.projectsGetByID,
    DeploymentProcess.deploymentProcessesGet,
    DeploymentProcess.deploymentProcessesGetByID,
    DeploymentProcess.deploymentProcessesUpdate,
    DeploymentProcess.setOrFromErr in *.

Section DeploymentProcessPaths.
Import Terraform Handler Shape DeploymentProcess.
Context {R : Type}.
Variable m : Client R.
Variable expandDeploymentProcess : ResourceData -> DeploymentProcess.
Variable setDeploymentProcess :
  ResourceData -> DeploymentProcess -> ResourceData * option error.
Variable ProcessApiError :
  ResourceData -> error -> string -> Diagnostics * ResourceData.

(** X2.  Whatever the client answers, Read invokes at most three client
    methods, all of them lookups (never Update), and a lookup by project
    and git ref it makes carries the empty ref. *)
Theorem read_only_looks_up (d : ResourceData) (w : World Call R) :
  exists l,
    calls (run (resourceDeploymentProcessRead m setDeploymentProcess
                  ProcessApiError) d w).2 = (calls w ++ l)%list /\
    (List.length l <= 3)%nat /\
    forallb isLookup l = true /\
    forall c ref, In c l -> gitRefOf c = Some ref -> ref = EmptyString.
Proof.
  unfold_handlers. unfold_run.
  repeat case_response;
    repeat match goal with
      | |- context [setDeploymentProcess ?a ?b] =>
          destruct (setDeploymentProcess a b) as [? [?|]]
      | |- context [ProcessApiError ?a ?b ?c] =>
          destruct (ProcessApiError a b c) as [? ?]
      end;
    cbn [snd calls]; rewrite <- ?app_assoc; cbn [app];
    (eexists; split; [reflexivity|]);
    (split; [cbn; lia|]); (split; [reflexivity|]);
    intros c ref Hin Href; cbn in Hin;
    repeat (destruct Hin as [<-|Hin]; [try discriminate Href|]);
    try contradiction;
    cbn in Href; injection Href as <-; apply getGitRef_always_empty.
Qed.

(** X3.  Delete clears the identifier exactly when it returns no
    diagnostic; on every failing path (a lookup or the Update failed)
    the resource data is left as it was.  It never panics. *)
Theorem delete_clears_only_on_success (d : ResourceData) (w : World Call R) :
  let res := run (resourceDeploymentProcessDelete m) d w in
  (res.1.1 = Some [] /\ res.1.2 = SetId EmptyString d) \/
  (exists e, res.1.1 = Some (FromErr e) /\ res.1.2 = d).
Proof.
  unfold_handlers. unfold_run.
  repeat case_response; cbn [fst snd]; eauto.
Qed.

(** X4.  Every lookup by project and git ref that Delete makes carries
    the empty ref, and Delete invokes Update at most once, as its last
    call. *)
Theorem delete_calls (d : ResourceData) (w : World Call R) :
  exists l,
    calls (run (resourceDeploymentProcessDelete m) d w).2 = (calls w ++ l)%list /\
    (forall c ref, In c l -> gitRefOf c = Some ref -> ref = EmptyString) /\
    (forallb isLookup l = true \/
     exists l' p, l = (l' ++ [DeploymentProcessesUpdate p])%list /\
                  forallb isLookup l' = true).
Proof.
  unfold_handlers. unfold_run.
  repeat case_response;
    cbn [snd calls]; rewrite <- ?app_assoc; cbn [app];
    (eexists; split; [reflexivity|]);
    (split;
     [intros c ref Hin Href; cbn in Hin;
      repeat (destruct Hin as [<-|Hin]; [try discriminate Href|]);
      try contradiction;
      cbn in Href; injection Href as <-; apply getGitRef_always_empty|]);
    first [left; reflexivity
          | right; eexists [_], _; split; reflexivity
          | right; eexists [_; _; _], _; split; reflexivity].
Qed.


(** X5.  When the direct lookup succeeds, the last client method Update
    invokes is the API Update, with the built process carrying the
    links and version of the entity found (identifier, branch and steps
    as built).  If the API rejects it, that error is the diagnostic and
    the resource data is untouched; otherwise the data is what the
    flattener made of the returned process, with the flattener's error,
    if any, as diagnostic. *)
Theorem update_direct (d : ResourceData) (w : World Call R)
    (current : DeploymentProcess) (r1 : R) :
  DeploymentProcesses_GetByID m (Id d) (remote w) = (Ok current, r1) ->
  let payload :=
    with_Version (Version current)
      (with_Links (Links current) (expandDeploymentProcess d)) in
  let res := run (resourceDeploymentProcessUpdate m expandDeploymentProcess
                    setDeploymentProcess) d w in
  ID payload = ID (expandDeploymentProcess d) /\
  Branch payload = Branch (expandDeploymentProcess d) /\
  Steps payload = Steps (expandDeploymentProcess d) /\
  last (calls res.2) = Some (DeploymentProcessesUpdate payload) /\
  match DeploymentProcesses_Update m payload r1 with
  | (Err e, r2) => res.1.1 = Some (FromErr e) /\ res.1.2 = d
  | (Ok updated, r2) =>
      res.1.2 = (setDeploymentProcess d updated).1 /\
      res.1.1 = Some (match (setDeploymentProcess d updated).2 with
                      | Some e => FromErr e
                      | None => []
                      end)
  end.
Proof.
  intros Hg payload. subst payload.
  unfold_handlers. unfold_run. rewrite Hg. unfold_run.
  split; [reflexivity|]. split; [reflexivity|]. split; [reflexivity|].
  destruct (DeploymentProcesses_Update m _ r1) as [[updated|e] r2]; unfold_run.
  - destruct (setDeploymentProcess d updated) as [d1 [e|]] eqn:Hs; unfold_run;
      rewrite last_snoc; auto.
  - rewrite last_snoc. auto.
Qed.

(** X6.  On the fallback path of Update the local identifier is
    rewritten before the process is looked up: when the direct lookup
    fails, the project resolves and the lookup by project and configured
    branch fails, Update returns that error with no Update issued, and
    for a version-controlled project the resource data already carries
    the identifier built from the configured branch. *)
Theorem update_fallback_lookup_failure (d : ResourceData) (w : World Call R)
    (e1 e2 : error) (project : Project) (r1 r2 r3 : R) :
  let projectID := GoRegexp.FindString reProjectID (Id d) in
  let branch := Branch (expandDeploymentProcess d) in
  DeploymentProcesses_GetByID m (Id d) (remote w) = (Err e1, r1) ->
  Projects_GetByID m projectID r1 = (Ok project, r2) ->
  DeploymentProcesses_Get m project branch r2 = (Err e2, r3) ->
  run (resourceDeploymentProcessUpdate m expandDeploymentProcess
         setDeploymentProcess) d w
  = (Some (FromErr e2),
     (if isVersionControlled project
      then SetId (compositeID projectID branch) d
      else d),
     {| remote := r3;
        calls := (calls w ++ [DeploymentProcessesGetByID (Id d);
                              ProjectsGetByID projectID;
                              DeploymentProcessesGet project branch])%list |}).
Proof.
  intros projectID branch Hg Hp Hc.
  unfold_handlers. unfold_run. rewrite Hg. unfold_run.
  fold projectID. rewrite Hp. unfold_run.
  rewrite update_branch_guard. unfold_run.
  destruct (isVersionControlled project); unfold_run;
    cbn [Branch with_ID]; fold branch; rewrite Hc; unfold_run;
    rewrite <- !app_assoc; reflexivity.
Qed.

(** X7.  Update never looks a process up by the git ref of the
    identifier: on every path, a lookup by project and git ref it makes
    carries the branch of the configuration, and it invokes the API
    Update at most once, as its last call. *)
Theorem update_calls (d : ResourceData) (w : World Call R) :
  exists l,
    calls (run (resourceDeploymentProcessUpdate m expandDeploymentProcess
                  setDeploymentProcess) d w).2 = (calls w ++ l)%list /\
    (forall c ref, In c l -> gitRefOf c = Some ref ->
                   ref = Branch (expandDeploymentProcess d)) /\
    (forallb isLookup l = true \/
     exists l' p, l = (l' ++ [DeploymentProcessesUpdate p])%list /\
                  forallb isLookup l' = true).
Proof.
  unfold_handlers. unfold_run.
  repeat (first [case_response | rewrite update_branch_guard]);
    repeat match goal with
      | |- context [setDeploymentProcess ?a ?b] =>
          destruct (setDeploymentProcess a b) as [? [?|]]
      end;
    cbn [snd calls]; rewrite <- ?app_assoc; cbn [app];
    (eexists; split; [reflexivity|]);
    (split;
     [intros c ref Hin Href; cbn in Hin;
      repeat (destruct Hin as [<-|Hin]; [try discriminate Href|]);
      try contradiction;
      cbn in Href; injection Href as <-; reflexivity|]);
    first [left; reflexivity
          | right; eexists [_], _; split; reflexivity
          | right; eexists [_; _; _], _; split; reflexivity].
Qed.

(** X8.  A Create that returns no diagnostic ended with three client
    calls: the lookup of the project of the built process, the lookup
    of the current process, by project and configured branch when the
    project is version-controlled and by the project's
    deployment-process ID otherwise, and an Update of the built process
    with the identifier, links and version of the process fetched. *)
Theorem create_payload (d d' : ResourceData) (w w' : World Call R) :
  run (resourceDeploymentProcessCreate m expandDeploymentProcess
         setDeploymentProcess) d w = (Some [], d', w') ->
  exists project current created r r0 r1 before,
    let built := expandDeploymentProcess d in
    let payload :=
      with_Version (Version current)
        (with_Links (Links current) (with_ID (ID current) built)) in
    Projects_GetByID m (ProjectID built) r = (Ok project, r0) /\
    (if isVersionControlled project
     then DeploymentProcesses_Get m project (Branch built) r0
     else DeploymentProcesses_GetByID m (DeploymentProcessID project) r0)
    = (Ok current, r1) /\
    DeploymentProcesses_Update m payload r1 = (Ok created, remote w') /\
    ID payload = ID current /\ Links payload = Links current /\
    Version payload = Version current /\
    Branch payload = Branch built /\ Steps payload = Steps built /\
    ProjectID payload = ProjectID built /\
    calls w' =
      (before ++
       [ProjectsGetByID (ProjectID built);
        (if isVersionControlled project
         then DeploymentProcessesGet project (Branch built)
         else DeploymentProcessesGetByID (DeploymentProcessID project));
        DeploymentProcessesUpdate payload])%list.
Proof.
  intros Hrun. unfold_handlers. unfold_run.
  destruct (Projects_GetByID m _ (remote w)) as [[project|e] r0] eqn:Hp;
    [|discriminate].
  unfold_run. exists project.
  destruct (isVersionControlled project) eqn:Hvc; unfold_run.
  - destruct (DeploymentProcesses_Get m project _ r0) as [[current|e] r1] eqn:Hc;
      [|discriminate].
    unfold_run.
    destruct (DeploymentProcesses_Update m _ r1) as [[created|e] r2] eqn:Hu;
      [|discriminate].
    unfold_run.
    destruct (setDeploymentProcess d created) as [d1 [e|]]; [discriminate|].
    injection Hrun as <- <-. exists current, created, (remote w), r0, r1, (calls w).
    cbn. rewrite <- !app_assoc. repeat (split; [auto; fail|]). reflexivity.
  - destruct (DeploymentProcesses_GetByID m _ r0) as [[current|e] r1] eqn:Hc;
      [|discriminate].
    unfold_run.
    destruct (DeploymentProcesses_Update m _ r1) as [[created|e] r2] eqn:Hu;
      [|discriminate].
    unfold_run.
    destruct (setDeploymentProcess d created) as [d1 [e|]]; [discriminate|].
    injection Hrun as <- <-. exists current, created, (remote w), r0, r1, (calls w).
    cbn. rewrite <- !app_assoc. repeat (split; [auto; fail|]). reflexivity.
Qed.

(** X9.  Whenever Create returns diagnostics, either they are the
    error of a lookup or of the Update and the resource data is as it
    was, or an Update succeeded; in that case an error of the flattener
    is returned without the identifier being assigned, and only when
    the flattener succeeds does Create return no diagnostic. *)
Theorem create_failure_paths (d d' : ResourceData) (w w' : World Call R)
    (ds : Diagnostics) :
  run (resourceDeploymentProcessCreate m expandDeploymentProcess
         setDeploymentProcess) d w = (Some ds, d', w') ->
  (exists e, ds = FromErr e /\ d' = d) \/
  (exists payload created r r',
      DeploymentProcesses_Update m payload r = (Ok created, r') /\
      last (calls w') = Some (DeploymentProcessesUpdate payload) /\
      match (setDeploymentProcess d created).2 with
      | Some e => ds = FromErr e /\ d' = (setDeploymentProcess d created).1
      | None =>
          ds = [] /\ rd_attrs d' = rd_attrs (setDeploymentProcess d created).1
      end).
Proof.
  unfold_handlers. unfold_run.
  repeat case_response; unfold_run;
    try match goal with
      | |- context [setDeploymentProcess ?a ?b] =>
          destruct (setDeploymentProcess a b) as [? [?|]] eqn:Hs
      end;
    intros [= <- <- <-]; eauto;
    right; do 4 eexists; (split; [eassumption|]);
    cbn [calls]; rewrite last_snoc, ?Hs; cbn; auto.
Qed.

End DeploymentProcessPaths.

(* ===================================================================== *)
(** * Project triggers: the builder on permitted values                  *)
(* ===================================================================== *)

Section TriggerBuilder.
Import Terraform Handler Util Trigger.

Lemma validateAllSliceItemsInSlice_valid (givenSlice validationSlice : list string) :
  (forall x, In x givenSlice -> In x validationSlice) ->
  validateAllSliceItemsInSlice givenSlice validationSlice = (EmptyString, true).
Proof.
  intros Hall.
  pose proof (validateAllSliceItemsInSlice_spec givenSlice validationSlice) as H.
  destruct (validateAllSliceItemsInSlice givenSlice validationSlice) as [v [|]].
  - destruct H as [-> _]. reflexivity.
  - destruct H as [Hin Hout]. destruct (Hout (Hall _ Hin)).
Qed.

Lemma validateAllSliceItemsInSlice_first (pre post : list string) (v : string)
    (validationSlice : list string) :
  (forall x, In x pre -> In x validationSlice) ->
  ~ In v validationSlice ->
  validateAllSliceItemsInSlice (pre ++ v :: post)%list validationSlice = (v, false).
Proof.
  intros Hpre Hv. induction pre as [|x pre IH]; cbn [app validateAllSliceItemsInSlice].
  - destruct (sliceContains validationSlice v) eqn:Hc; [|reflexivity].
    apply sliceContains_In in Hc. contradiction.
  - assert (Hx : sliceContains validationSlice x = true).
    { apply sliceContains_In, Hpre. left. reflexivity. }
    rewrite Hx. apply IH. intros y Hy. apply Hpre. right. assumption.
Qed.

Lemma build_trigger_ok (d : ResourceData)
    (name projectID : string) (shouldRedeploy : bool)
    (groups cats roles envs : list string) :
  Get d "name" = VString name ->
  Get d "project_id" = VString projectID ->
  Get d "should_redeploy" = VBool shouldRedeploy ->
  Get d "event_groups" = VList (VString <$> groups) ->
  Get d "event_categories" = VList (VString <$> cats) ->
  Get d "roles" = VList (VString <$> roles) ->
  Get d "environment_ids" = VList (VString <$> envs) ->
  (forall x, In x groups -> In x validEventGroups) ->
  (forall x, In x cats -> In x validEventCategories) ->
  buildProjectDeploymentTargetTriggerResource d
  = Some (Ok {| ID := EmptyString; Name := name; ProjectID := projectID;
                Action := {| ShouldRedeployWhenMachineHasBeenDeployedTo :=
                               shouldRedeploy |};
                Filter := {| EnvironmentIDs := envs; EventCategories := cats;
                             EventGroups := groups; Roles := roles |} |}).
Proof.
  intros Hn Hp Hs Hg Hc Hr He Hgv Hcv.
  unfold buildProjectDeploymentTargetTriggerResource.
  rewrite Hn, Hp, Hs. cbn [as_string as_bool mbind option_bind].
  rewrite (GetOk_strings _ _ _ Hg), (GetOk_strings _ _ _ Hc),
    (GetOk_strings _ _ _ Hr), (GetOk_strings _ _ _ He).
  rewrite !getSliceFromTerraformTypeList_strings.
  rewrite (validateAllSliceItemsInSlice_valid _ _ Hgv),
    (validateAllSliceItemsInSlice_valid _ _ Hcv).
  destruct groups, cats, roles, envs; reflexivity.
Qed.

(** X10.  On a well-typed configuration the builder succeeds exactly
    when every event group and every event category is a permitted
    value, and the trigger it then returns has the configured name,
    project, redeploy flag, event groups, event categories, roles and
    environment IDs, and no identifier. *)
Theorem build_trigger_valid (d : ResourceData)
    (name projectID : string) (shouldRedeploy : bool)
    (groups cats roles envs : list string) :
  Get d "name" = VString name ->
  Get d "project_id" = VString projectID ->
  Get d "should_redeploy" = VBool shouldRedeploy ->
  Get d "event_groups" = VList (VString <$> groups) ->
  Get d "event_categories" = VList (VString <$> cats) ->
  Get d "roles" = VList (VString <$> roles) ->
  Get d "environment_ids" = VList (VString <$> envs) ->
  ((forall x, In x groups -> In x validEventGroups) /\
   (forall x, In x cats -> In x validEventCategories)
   <-> exists t, buildProjectDeploymentTargetTriggerResource d = Some (Ok t)) /\
  forall t, buildProjectDeploymentTargetTriggerResource d = Some (Ok t) ->
    t = {| ID := EmptyString; Name := name; ProjectID := projectID;
           Action := {| ShouldRedeployWhenMachineHasBeenDeployedTo := shouldRedeploy |};
           Filter := {| EnvironmentIDs := envs; EventCategories := cats;
                        EventGroups := groups; Roles := roles |} |}.
Proof.
  intros Hn Hp Hs Hg Hc Hr He.
  pose proof (build_trigger_ok d _ _ _ _ _ _ _ Hn Hp Hs Hg Hc Hr He) as Hvalid.
  assert (Hinv :
    forall t, buildProjectDeploymentTargetTriggerResource d = Some (Ok t) ->
    (forall x, In x groups -> In x validEventGroups) /\
    (forall x, In x cats -> In x validEventCategories)).
  { intros t Hb.
    pose proof (validateAllSliceItemsInSlice_spec groups validEventGroups) as Hgs.
    destruct (validateAllSliceItemsInSlice groups validEventGroups)
      as [g [|]] eqn:Hvg.
    - destruct Hgs as [_ Hgv]. split; [exact Hgv|].
      pose proof (validateAllSliceItemsInSlice_spec cats validEventCategories) as Hcs.
      destruct (validateAllSliceItemsInSlice cats validEventCategories)
        as [c [|]] eqn:Hvc.
      + apply Hcs.
      + rewrite (build_invalid_event_category d _ _ _ _ _ _ Hn Hp Hs Hg Hc Hgv Hvc)
          in Hb. discriminate.
    - rewrite (build_invalid_event_group d _ _ _ _ _ Hn Hp Hs Hg Hvg) in Hb.
      discriminate. }
  split; [split|].
  - intros [Hgv Hcv]. eexists. apply Hvalid; assumption.
  - intros [t Hb]. exact (Hinv t Hb).
  - intros t Hb. destruct (Hinv t Hb) as [Hgv Hcv].
    rewrite (Hvalid Hgv Hcv) in Hb. injection Hb as <-. reflexivity.
Qed.

(** X11.  Event groups are validated first and in list order: when the
    first event group outside the enumeration is [v], the builder's
    error names [event_groups] and [v], whatever the later groups and
    whatever the event categories hold. *)
Theorem build_trigger_first_invalid_group (d : ResourceData)
    (name projectID : string) (shouldRedeploy : bool)
    (pre post : list string) (v : string) :
  Get d "name" = VString name ->
  Get d "project_id" = VString projectID ->
  Get d "should_redeploy" = VBool shouldRedeploy ->
  Get d "event_groups" = VList (VString <$> (pre ++ v :: post)%list) ->
  (forall x, In x pre -> In x validEventGroups) ->
  ~ In v validEventGroups ->
  buildProjectDeploymentTargetTriggerResource d
  = Some (Err ("Invalid value for event_groups. " ++ v ++ " not in "
               ++ "[Machine MachineCritical MachineAvailableForDeployment MachineUnavailableForDeployment MachineHealthChanged]")).
Proof.
  intros Hn Hp Hs Hg Hpre Hv.
  exact (build_invalid_event_group d _ _ _ _ _ Hn Hp Hs Hg
           (validateAllSliceItemsInSlice_first _ _ _ _ Hpre Hv)).
Qed.

End TriggerBuilder.

(* ===================================================================== *)
(** * Project triggers: what the handlers do on every path               *)
(* ===================================================================== *)

Section TriggerPaths.
Import Terraform Handler Util Trigger.
Context {R : Type}.
Variable m : Client R.
Variable isEmpty : string -> bool.

(** X12.  Create and Update never write an attribute, only the
    identifier; whenever they do not succeed the resource data is left
    as it was; they invoke at most one client method, and none (the
    remote is untouched) unless the builder returned a trigger. *)
Theorem trigger_create_update_paths (d : ResourceData) (w : World Call R) :
  let ok := fun res : option Diagnostics * ResourceData * World Call R =>
    rd_attrs res.1.2 = rd_attrs d /\
    (res.1.1 <> Some [] -> res.1.2 = d) /\
    exists l,
      calls res.2 = (calls w ++ l)%list /\ (List.length l <= 1)%nat /\
      ((forall t, buildProjectDeploymentTargetTriggerResource d <> Some (Ok t)) ->
       l = [] /\ remote res.2 = remote w) in
  ok (run (resourceProjectDeploymentTargetTriggerCreate m isEmpty) d w) /\
  ok (run (resourceProjectDeploymentTargetTriggerUpdate m) d w).
Proof.
  intros ok.
  enough (Hall : forall res,
    res = run (resourceProjectDeploymentTargetTriggerCreate m isEmpty) d w \/
    res = run (resourceProjectDeploymentTargetTriggerUpdate m) d w -> ok res)
    by (split; apply Hall; auto).
  subst ok. cbn beta. intros res Hres.
  unfold resourceProjectDeploymentTargetTriggerCreate,
    resourceProjectDeploymentTargetTriggerUpdate in Hres.
  unfold_run.
  destruct (buildProjectDeploymentTargetTriggerResource d) as [[t|e]|] eqn:Hb;
    unfold_run.
  - destruct Hres as [-> | ->].
    + destruct (ProjectTriggers_Add m t (remote w)) as [[resource|e] r];
        unfold_run.
      * destruct (isEmpty (GetID resource)); cbn;
          (split; [reflexivity|]); (split; [intros Hne; first [reflexivity | destruct (Hne eq_refl)]|]);
          exists [ProjectTriggersAdd t]; (split; [reflexivity|]);
          (split; [cbn; lia|]); intros Hno; destruct (Hno t eq_refl).
      * cbn. split; [reflexivity|]. split; [reflexivity|].
        exists [ProjectTriggersAdd t]. split; [reflexivity|].
        split; [cbn; lia|]. intros Hno. destruct (Hno t eq_refl).
    + destruct (ProjectTriggers_Update m _ (remote w)) as [[resource|e] r];
        unfold_run; cbn;
        (split; [reflexivity|]); (split; [intros Hne; first [reflexivity | destruct (Hne eq_refl)]|]);
        eexists [_]; (split; [reflexivity|]);
        (split; [cbn; lia|]); intros Hno; destruct (Hno t eq_refl).
  - destruct Hres as [-> | ->]; cbn;
      (split; [reflexivity|]); (split; [reflexivity|]);
      exists []; rewrite app_nil_r; auto.
  - destruct Hres as [-> | ->]; cbn;
      (split; [reflexivity|]); (split; [reflexivity|]);
      exists []; rewrite app_nil_r; auto.
Qed.

(** X13.  For a well-typed configuration with permitted values, Create
    submits the trigger with the configured fields and no identifier;
    when the API returns a resource, the local identifier becomes the
    returned one, unless [isEmpty] holds of it, in which case the
    identifier is left as it was although Create returns no
    diagnostic. *)
Theorem trigger_create_success (d : ResourceData) (w : World Call R)
    (name projectID : string) (shouldRedeploy : bool)
    (groups cats roles envs : list string)
    (resource : ProjectTrigger) (r : R) :
  let t := {| ID := EmptyString; Name := name; ProjectID := projectID;
              Action := {| ShouldRedeployWhenMachineHasBeenDeployedTo :=
                             shouldRedeploy |};
              Filter := {| EnvironmentIDs := envs; EventCategories := cats;
                           EventGroups := groups; Roles := roles |} |} in
  Get d "name" = VString name ->
  Get d "project_id" = VString projectID ->
  Get d "should_redeploy" = VBool shouldRedeploy ->
  Get d "event_groups" = VList (VString <$> groups) ->
  Get d "event_categories" = VList (VString <$> cats) ->
  Get d "roles" = VList (VString <$> roles) ->
  Get d "environment_ids" = VList (VString <$> envs) ->
  (forall x, In x groups -> In x validEventGroups) ->
  (forall x, In x cats -> In x validEventCategories) ->
  ProjectTriggers_Add m t (remote w) = (Ok resource, r) ->
  run (resourceProjectDeploymentTargetTriggerCreate m isEmpty) d w
  = (Some [],
     (if isEmpty (GetID resource) then d else SetId (GetID resource) d),
     {| remote := r; calls := (calls w ++ [ProjectTriggersAdd t])%list |}).
Proof.
  intros t Hn Hp Hs Hg Hc Hr He Hgv Hcv Hadd.
  pose proof (build_trigger_ok d _ _ _ _ _ _ _ Hn Hp Hs Hg Hc Hr He Hgv Hcv) as Hb.
  unfold resourceProjectDeploymentTargetTriggerCreate. unfold_run.
  rewrite Hb. unfold_run. fold t. rewrite Hadd. unfold_run.
  destruct (isEmpty (GetID resource)); reflexivity.
Qed.

(** X14.  For a well-typed configuration with permitted values, Update
    submits the trigger with the configured fields under the local
    identifier; when the API returns a resource, the local identifier
    becomes the returned one unconditionally (also when it is empty). *)
Theorem trigger_update_success (d : ResourceData) (w : World Call R)
    (name projectID : string) (shouldRedeploy : bool)
    (groups cats roles envs : list string)
    (resource : ProjectTrigger) (r : R) :
  let t := {| ID := Id d; Name := name; ProjectID := projectID;
              Action := {| ShouldRedeployWhenMachineHasBeenDeployedTo :=
                             shouldRedeploy |};
              Filter := {| EnvironmentIDs := envs; EventCategories := cats;
                           EventGroups := groups; Roles := roles |} |} in
  Get d "name" = VString name ->
  Get d "project_id" = VString projectID ->
  Get d "should_redeploy" = VBool shouldRedeploy ->
  Get d "event_groups" = VList (VString <$> groups) ->
  Get d "event_categories" = VList (VString <$> cats) ->
  Get d "roles" = VList (VString <$> roles) ->
  Get d "environment_ids" = VList (VString <$> envs) ->
  (forall x, In x groups -> In x validEventGroups) ->
  (forall x, In x cats -> In x validEventCategories) ->
  ProjectTriggers_Update m t (remote w) = (Ok resource, r) ->
  run (resourceProjectDeploymentTargetTriggerUpdate m) d w
  = (Some [], SetId (GetID resource) d,
     {| remote := r; calls := (calls w ++ [ProjectTriggersUpdate t])%list |}).
Proof.
  intros t Hn Hp Hs Hg Hc Hr He Hgv Hcv Hupd.
  pose proof (build_trigger_ok d _ _ _ _ _ _ _ Hn Hp Hs Hg Hc Hr He Hgv Hcv) as Hb.
  unfold resourceProjectDeploymentTargetTriggerUpdate. unfold_run.
  rewrite Hb. unfold_run.
  change (with_ID (Id d) _) with t. rewrite Hupd. reflexivity.
Qed.

(** The run of Read when the client returns a trigger. *)
Lemma read_found_run_trigger (d : ResourceData) (w : World Call R)
    (resource : ProjectTrigger) (r : R) :
  ProjectTriggers_GetByID m (Id d) (remote w) = (Ok (Some resource), r) ->
  run (resourceProjectDeploymentTargetTriggerRead m) d w
  = (Some [],
     Set_ "should_redeploy"
       (VBool (ShouldRedeployWhenMachineHasBeenDeployedTo (Action resource)))
       (Set_ "roles" (VStrings (Roles (Filter resource)))
          (Set_ "name" (VString (Name resource))
             (Set_ "event_categories" (VStrings (EventCategories (Filter resource)))
                (Set_ "event_groups" (VStrings (EventGroups (Filter resource)))
                   (Set_ "environment_ids"
                      (VStrings (EnvironmentIDs (Filter resource))) d))))),
     {| remote := r; calls := (calls w ++ [ProjectTriggersGetByID (Id d)])%list |}).
Proof.
  intros Hg. unfold resourceProjectDeploymentTargetTriggerRead.
  unfold_run. rewrite Hg. reflexivity.
Qed.

(** X15.  When the client returns a trigger, Read returns no diagnostic
    and writes six attributes from it (environment IDs, event groups,
    event categories, name, roles, redeploy flag); the identifier,
    [project_id] and every other attribute are left as they were. *)
Theorem trigger_read_found (d : ResourceData) (w : World Call R)
    (resource : ProjectTrigger) (r : R) :
  ProjectTriggers_GetByID m (Id d) (remote w) = (Ok (Some resource), r) ->
  let res := run (resourceProjectDeploymentTargetTriggerRead m) d w in
  res.1.1 = Some [] /\
  Id res.1.2 = Id d /\
  Get res.1.2 "environment_ids" = VStrings (EnvironmentIDs (Filter resource)) /\
  Get res.1.2 "event_groups" = VStrings (EventGroups (Filter resource)) /\
  Get res.1.2 "event_categories" = VStrings (EventCategories (Filter resource)) /\
  Get res.1.2 "name" = VString (Name resource) /\
  Get res.1.2 "roles" = VStrings (Roles (Filter resource)) /\
  Get res.1.2 "should_redeploy"
    = VBool (ShouldRedeployWhenMachineHasBeenDeployedTo (Action resource)) /\
  Get res.1.2 "project_id" = Get d "project_id" /\
  forall key,
    ~ In key ["environment_ids"; "event_groups"; "event_categories";
              "name"; "roles"; "should_redeploy"] ->
    Get res.1.2 key = Get d key.
Proof.
  intros Hg res. subst res. rewrite (read_found_run_trigger d w resource r Hg).
  cbn [fst snd]. unfold Get, index, Set_, Id. cbn [rd_attrs rd_id].
  do 9 (split; [first [reflexivity
                      | rewrite ?lookup_insert_ne by discriminate;
                        first [rewrite lookup_insert_eq; reflexivity
                              | reflexivity]]
                 |]).
  intros key Hkey.
  rewrite !lookup_insert_ne; [reflexivity|..];
    intros <-; apply Hkey; cbn; tauto.
Qed.

(** X16.  Read invokes exactly one client method, the lookup by the
    local identifier, and fails only when that lookup fails: then the
    lookup's error is the diagnostic and the record stays in state
    unchanged. *)
Theorem trigger_read_paths (d : ResourceData) (w : World Call R) :
  let res := run (resourceProjectDeploymentTargetTriggerRead m) d w in
  calls res.2 = (calls w ++ [ProjectTriggersGetByID (Id d)])%list /\
  remote res.2 = (ProjectTriggers_GetByID m (Id d) (remote w)).2 /\
  match (ProjectTriggers_GetByID m (Id d) (remote w)).1 with
  | Err e => res.1.1 = Some (FromErr e) /\ res.1.2 = d
  | Ok _ => res.1.1 = Some []
  end.
Proof.
  unfold resourceProjectDeploymentTargetTriggerRead. unfold_run.
  destruct (ProjectTriggers_GetByID m (Id d) (remote w)) as [[[resource|]|e] r];
    cbn; auto.
Qed.

(** X17.  Round trip of the builder and Read: when the client returns,
    under any identifier, the trigger the builder makes of a well-typed
    configuration with permitted values, Read leaves the name, the
    redeploy flag and the four lists of the configuration as they
    were. *)
Theorem trigger_build_read_roundtrip (d : ResourceData) (w : World Call R)
    (name projectID : string) (shouldRedeploy : bool)
    (groups cats roles envs : list string)
    (t : ProjectTrigger) (id : string) (r : R) :
  Get d "name" = VString name ->
  Get d "project_id" = VString projectID ->
  Get d "should_redeploy" = VBool shouldRedeploy ->
  Get d "event_groups" = VList (VString <$> groups) ->
  Get d "event_categories" = VList (VString <$> cats) ->
  Get d "roles" = VList (VString <$> roles) ->
  Get d "environment_ids" = VList (VString <$> envs) ->
  buildProjectDeploymentTargetTriggerResource d = Some (Ok t) ->
  ProjectTriggers_GetByID m (Id d) (remote w) = (Ok (Some (with_ID id t)), r) ->
  let d' := (run (resourceProjectDeploymentTargetTriggerRead m) d w).1.2 in
  Get d' "name" = Get d "name" /\
  Get d' "should_redeploy" = Get d "should_redeploy" /\
  Get d' "project_id" = Get d "project_id" /\
  forall key,
    In key ["event_groups"; "event_categories"; "roles"; "environment_ids"] ->
    getSliceFromTerraformTypeList (Get d' key)
    = getSliceFromTerraformTypeList (Get d key).
Proof.
  intros Hn Hp Hs Hg Hc Hr He Hb Hget d'. subst d'.
  rewrite (read_found_run_trigger d w _ r Hget). cbn [fst snd].
  pose proof (validateAllSliceItemsInSlice_spec groups validEventGroups) as Hgs.
  destruct (validateAllSliceItemsInSlice groups validEventGroups)
    as [g [|]] eqn:Hvg;
    [|rewrite (build_invalid_event_group d _ _ _ _ _ Hn Hp Hs Hg Hvg) in Hb;
      discriminate].
  destruct Hgs as [_ Hgv].
  pose proof (validateAllSliceItemsInSlice_spec cats validEventCategories) as Hcs.
  destruct (validateAllSliceItemsInSlice cats validEventCategories)
    as [c [|]] eqn:Hvc;
    [|rewrite (build_invalid_event_category d _ _ _ _ _ _ Hn Hp Hs Hg Hc Hgv Hvc)
        in Hb; discriminate].
  destruct Hcs as [_ Hcv].
  rewrite (build_trigger_ok d _ _ _ _ _ _ _ Hn Hp Hs Hg Hc Hr He Hgv Hcv) in Hb.
  injection Hb as <-. cbn [with_ID Filter Action Name EnvironmentIDs
                           EventCategories EventGroups Roles
                           ShouldRedeployWhenMachineHasBeenDeployedTo].
  assert (Hget' : forall k v d0, Get (Set_ k v d0) k = v).
  { intros. unfold Get, index, Set_. cbn. rewrite lookup_insert_eq. reflexivity. }
  assert (Hskip : forall k k' v d0, k <> k' -> Get (Set_ k v d0) k' = Get d0 k').
  { intros. unfold Get, index, Set_. cbn. rewrite lookup_insert_ne by assumption.
    reflexivity. }
  split; [|split; [|split]].
  - rewrite !Hskip by discriminate. rewrite Hget'. symmetry. exact Hn.
  - rewrite Hget'. symmetry. exact Hs.
  - rewrite !Hskip by discriminate. reflexivity.
  - intros key [<-|[<-|[<-|[<-|[]]]]].
    + rewrite !Hskip by discriminate. rewrite Hget', Hg.
      rewrite getSliceFromTerraformTypeList_strings. reflexivity.
    + rewrite !Hskip by discriminate. rewrite Hget', Hc.
      rewrite getSliceFromTerraformTypeList_strings. reflexivity.
    + rewrite !Hskip by discriminate. rewrite Hget', Hr.
      rewrite getSliceFromTerraformTypeList_strings. reflexivity.
    + rewrite !Hskip by discriminate. rewrite Hget', He.
      rewrite getSliceFromTerraformTypeList_strings. reflexivity.
Qed.

End TriggerPaths.

(* ===================================================================== *)
(** * Lifecycles: what the builder reads                                 *)
(* ===================================================================== *)

Section LifecycleBuilder.
Import Terraform Handler Util Lifecycle Shape.

Lemma int32_range (x : Z) : (- 2 ^ 31 <= int32 x < 2 ^ 31)%Z.
Proof.
  unfold int32.
  pose proof (Z.mod_pos_bound (x + 2 ^ 31) (2 ^ 32) ltac:(lia)). lia.
Qed.

Lemma int32_congruent (x : Z) : ((int32 x - x) mod 2 ^ 32 = 0)%Z.
Proof.
  unfold int32.
  pose proof (Z.div_mod (x + 2 ^ 31) (2 ^ 32) ltac:(lia)) as H.
  apply Z.mod_divide; [lia|].
  exists (- ((x + 2 ^ 31) / 2 ^ 32))%Z. lia.
Qed.

Lemma int32_id (x : Z) : (- 2 ^ 31 <= x < 2 ^ 31)%Z -> int32 x = x.
Proof. intros H. unfold int32. rewrite Z.mod_small by lia. lia. Qed.

(** A retention attribute with no block or with more than one is read
    as absent, without an error. *)
Lemma getRetentionPeriod_absent (d : ResourceData) (key : string)
    (blocks : list value) :
  Get d key = VList blocks ->
  List.length blocks <> 1%nat ->
  getRetentionPeriod d key = Some None.
Proof.
  intros Hget Hlen. unfold getRetentionPeriod, GetOk. rewrite Hget.
  destruct blocks as [|b [|b' blocks]]; cbn in *; congruence.
Qed.

(** X19.  A retention attribute with one well-typed block is read as a
    retention period with the block's unit and its quantity converted
    to 32 bits: the quantity itself when it fits, otherwise the value
    in the 32-bit range that differs from it by a multiple of 2^32. *)
Theorem getRetentionPeriod_one_block (d : ResourceData) (key : string)
    (block : gmap string value) (unit : string) (quantity : Z) :
  Get d key = VList [VMap block] ->
  index block constUnit = VString unit ->
  index block constQuantityToKeep = VInt quantity ->
  exists r,
    getRetentionPeriod d key = Some (Some r) /\
    Unit r = unit /\
    (- 2 ^ 31 <= QuantityToKeep r < 2 ^ 31)%Z /\
    ((QuantityToKeep r - quantity) mod 2 ^ 32 = 0)%Z /\
    ((- 2 ^ 31 <= quantity < 2 ^ 31)%Z -> QuantityToKeep r = quantity).
Proof.
  intros Hget Hunit Hq. unfold getRetentionPeriod, GetOk. rewrite Hget.
  cbn. rewrite Hunit, Hq. cbn. eexists. split; [reflexivity|]. cbn.
  split; [reflexivity|]. split; [apply int32_range|].
  split; [apply int32_congruent | apply int32_id].
Qed.

Lemma buildPhaseResource_built (m : gmap string value) (p : Phase) :
  buildPhaseResource m = Some p -> phaseBuiltFrom (VMap m) p.
Proof.
  unfold buildPhaseResource. intros H.
  destruct (index m constName) as [|name| | | | | | |] eqn:Hn; try discriminate.
  cbn [as_string mbind option_bind] in H.
  destruct (index m constMinimumEnvironmentsBeforePromotion)
    as [| |threshold| | | | | |] eqn:Ht; try discriminate.
  cbn [as_int mbind option_bind] in H.
  destruct (index m constIsOptionalPhase) as [| | | |opt| | | |] eqn:Ho;
    try discriminate.
  cbn [as_bool mbind option_bind] in H.
  injection H as <-. exists m, threshold. cbn.
  repeat (split; [first [reflexivity | assumption]|]).
  split; [|split; [|auto]].
  - destruct (getSliceFromTerraformTypeList (index m constAutomaticDeploymentTargets));
      reflexivity.
  - destruct (getSliceFromTerraformTypeList (index m constOptionalDeploymentTargets));
      reflexivity.
Qed.

Lemma appendPhases_built (tfPhases : list value) (lifecycle built : Lifecycle) :
  appendPhases tfPhases lifecycle = Some built ->
  exists ps,
    Forall2 phaseBuiltFrom tfPhases ps /\
    built = with_Phases (Phases lifecycle ++ ps)%list lifecycle.
Proof.
  revert lifecycle. induction tfPhases as [|v tfPhases IH]; intros lifecycle H.
  - cbn in H. injection H as <-. exists []. split; [constructor|].
    rewrite app_nil_r. destruct lifecycle; reflexivity.
  - cbn [appendPhases] in H.
    destruct v as [| | | | | | |m|]; try discriminate.
    cbn [as_map mbind option_bind] in H.
    destruct (buildPhaseResource m) as [p|] eqn:Hp; [|discriminate].
    cbn [mbind option_bind] in H.
    destruct (IH _ H) as (ps & Hps & ->).
    exists (p :: ps). split.
    + constructor; [apply buildPhaseResource_built; assumption | assumption].
    + cbn. rewrite <- app_assoc. reflexivity.
Qed.

Section Build.
Variable NewLifecycle : string -> Lifecycle.

(** The shape of every lifecycle the builder returns. *)
Lemma buildLifecycleResource_inv (d : ResourceData) (name : string)
    (built : Lifecycle) :
  Get d constName = VString name ->
  buildLifecycleResource NewLifecycle d = Some built ->
  exists release tentacle ps,
    getRetentionPeriod d constReleaseRetentionPolicy = Some release /\
    getRetentionPeriod d constTentacleRetentionPolicy = Some tentacle /\
    (forall tfPhases, Get d constPhase = VList tfPhases ->
                      Forall2 phaseBuiltFrom tfPhases ps) /\
    built =
      {| ID := ID (NewLifecycle name);
         Description :=
           (if (GetOk d constDescription).2
            then default EmptyString (as_string (Get d constDescription))
            else Description (NewLifecycle name));
         Name := Name (NewLifecycle name);
         Phases := (Phases (NewLifecycle name) ++ ps)%list;
         ReleaseRetentionPolicy :=
           default (ReleaseRetentionPolicy (NewLifecycle name)) release;
         TentacleRetentionPolicy :=
           default (TentacleRetentionPolicy (NewLifecycle name)) tentacle |}.
Proof.
  intros Hname H. unfold buildLifecycleResource in H.
  assert (Hn : (let '(v, ok) := GetOk d constName in
                if ok then as_string v else Some EmptyString) = Some name).
  { unfold GetOk. rewrite Hname. destruct name; reflexivity. }
  rewrite Hn in H. cbn [mbind option_bind] in H.
  set (l0 := NewLifecycle name) in *.
  assert (Hfinish : forall l1 : Lifecycle,
    (let '(attr, ok) := GetOk d constPhase in
     if ok then tfPhases ← as_list attr; appendPhases tfPhases l1
     else Some l1) = Some built ->
    exists ps,
      (forall tfPhases, Get d constPhase = VList tfPhases ->
                        Forall2 phaseBuiltFrom tfPhases ps) /\
      built = with_Phases (Phases l1 ++ ps)%list l1).
  { intros l1 Hl1. unfold GetOk in Hl1.
    destruct (negb (is_zero (Get d constPhase))) eqn:Hok.
    - destruct (Get d constPhase) as [| | | | | |tfs| |] eqn:Hg; try discriminate.
      cbn [as_list mbind option_bind] in Hl1.
      destruct (appendPhases_built _ _ _ Hl1) as (ps & Hps & ->).
      exists ps. split; [|reflexivity]. intros tfPhases [= <-]. exact Hps.
    - injection Hl1 as <-. exists []. split.
      + intros tfPhases Hg. rewrite Hg in Hok. destruct tfPhases; [constructor|].
        discriminate.
      + rewrite app_nil_r. destruct l1; reflexivity. }
  unfold GetOk in H. unfold GetOk at 1. cbn [snd].
  destruct (negb (is_zero (Get d constDescription))) eqn:Hd;
    [destruct (as_string (Get d constDescription)) as [description|];
     [|discriminate]|];
    cbn [mbind option_bind] in H;
    (destruct (getRetentionPeriod d constReleaseRetentionPolicy)
       as [release|] eqn:Hr; [|discriminate]);
    cbn [mbind option_bind] in H;
    (destruct (getRetentionPeriod d constTentacleRetentionPolicy)
       as [tentacle|] eqn:Ht; [|discriminate]);
    cbn [mbind option_bind] in H;
    exists release, tentacle;
    destruct (Hfinish _ H) as (ps & Hps & ->); exists ps;
    (split; [reflexivity|]); (split; [reflexivity|]); (split; [exact Hps|]);
    destruct release, tentacle, l0; reflexivity.
Qed.

(** X18.  A retention attribute with no block or with more than one is
    ignored without an error: the lifecycle the builder returns keeps,
    for that policy, the retention period the constructor gave it. *)
Theorem build_lifecycle_retention_absent (d : ResourceData) (name : string)
    (built : Lifecycle) (release tentacle : list value) :
  Get d constName = VString name ->
  Get d constReleaseRetentionPolicy = VList release ->
  Get d constTentacleRetentionPolicy = VList tentacle ->
  buildLifecycleResource NewLifecycle d = Some built ->
  (List.length release <> 1%nat ->
   ReleaseRetentionPolicy built = ReleaseRetentionPolicy (NewLifecycle name)) /\
  (List.length tentacle <> 1%nat ->
   TentacleRetentionPolicy built = TentacleRetentionPolicy (NewLifecycle name)).
Proof.
  intros Hname Hrel Hten Hb.
  destruct (buildLifecycleResource_inv d name built Hname Hb)
    as (r & t & ps & Hr & Ht & _ & ->).
  cbn [ReleaseRetentionPolicy TentacleRetentionPolicy]. split; intros Hlen.
  - rewrite (getRetentionPeriod_absent _ _ _ Hrel Hlen) in Hr.
    injection Hr as <-. reflexivity.
  - rewrite (getRetentionPeriod_absent _ _ _ Hten Hlen) in Ht.
    injection Ht as <-. reflexivity.
Qed.

(** X20.  The lifecycle the builder returns has the phases of the
    configuration, one for one and in order, after those the
    constructor put: each has the configured name, threshold, flag and
    target lists, an empty identifier and no retention policy of its
    own.  Its identifier and name are the constructor's. *)
Theorem build_lifecycle_phases (d : ResourceData) (name : string)
    (tfPhases : list value) (built : Lifecycle) :
  Get d constName = VString name ->
  Get d constPhase = VList tfPhases ->
  buildLifecycleResource NewLifecycle d = Some built ->
  exists ps,
    Phases built = (Phases (NewLifecycle name) ++ ps)%list /\
    Forall2 phaseBuiltFrom tfPhases ps /\
    List.length ps = List.length tfPhases /\
    ID built = ID (NewLifecycle name) /\
    Name built = Name (NewLifecycle name).
Proof.
  intros Hname Hphase Hb.
  destruct (buildLifecycleResource_inv d name built Hname Hb)
    as (r & t & ps & _ & _ & Hps & ->).
  exists ps. specialize (Hps _ Hphase).
  split; [reflexivity|]. split; [exact Hps|].
  split; [symmetry; apply (Forall2_length _ _ _ Hps)|]. split; reflexivity.
Qed.

End Build.

End LifecycleBuilder.

(* ===================================================================== *)
(** * Lifecycles: the flattener and the handlers on every path           *)
(* ===================================================================== *)

Section LifecyclePaths.
Import Terraform Handler Util Lifecycle.
Context {R : Type}.
Variable m : Client R.
Variable NewLifecycle : string -> Lifecycle.

Lemma Get_Set_eq (key : string) (v : value) (d : ResourceData) :
  Get (Set_ key v d) key = v.
Proof. unfold Get, index, Set_. cbn. rewrite lookup_insert_eq. reflexivity. Qed.

Lemma Get_Set_ne (key key' : string) (v : value) (d : ResourceData) :
  key <> key' -> Get (Set_ key v d) key' = Get d key'.
Proof.
  intros. unfold Get, index, Set_. cbn.
  rewrite lookup_insert_ne by assumption. reflexivity.
Qed.

Lemma Get_SetId (id key : string) (d : ResourceData) :
  Get (SetId id d) key = Get d key.
Proof. reflexivity. Qed.

Lemma fold_phase_other (ps : list Phase) (d : ResourceData) (key : string) :
  constPhase <> key ->
  Get (fold_left (fun d phase => Set_ constPhase (flattenPhase phase) d) ps d) key
  = Get d key.
Proof.
  intros Hne. revert d. induction ps as [|p ps IH]; intros d; [reflexivity|].
  cbn [fold_left]. rewrite IH. apply Get_Set_ne. assumption.
Qed.

(** The loop of the flattener, from its effect on the data alone. *)
Lemma forEach_phase_run (ps : list Phase) (s : State Call R) :
  forEach ps (fun phase => modifyData (Set_ constPhase (flattenPhase phase))) s
  = (Value _ tt,
     {| data := fold_left (fun d phase => Set_ constPhase (flattenPhase phase) d)
                          ps (data s);
        world := world s |}).
Proof.
  revert s. induction ps as [|p ps IH]; intros s.
  - destruct s. reflexivity.
  - cbn [forEach fold_left]. unfold bind at 1. unfold modifyData at 1.
    rewrite IH. reflexivity.
Qed.

Lemma fold_phase_last (ps : list Phase) (d : ResourceData) :
  Get (fold_left (fun d phase => Set_ constPhase (flattenPhase phase) d) ps d)
      constPhase
  = match last ps with
    | Some p => flattenPhase p
    | None => Get d constPhase
    end.
Proof.
  destruct ps as [|p ps] using rev_ind; [reflexivity|].
  rewrite fold_left_app, last_snoc. cbn [fold_left]. apply Get_Set_eq.
Qed.

(** The flattener as a function of the data: it always completes and
    makes no call. *)
Lemma flattenLifecycle_run (lifecycle : Lifecycle) (s : State Call R) :
  flattenLifecycle lifecycle s
  = (Value _ tt,
     {| data :=
          SetId (GetID lifecycle)
            (Set_ constTentacleRetentionPolicy
               (flattenRetentionPeriod (TentacleRetentionPolicy lifecycle))
               (Set_ constReleaseRetentionPolicy
                  (flattenRetentionPeriod (ReleaseRetentionPolicy lifecycle))
                  (fold_left
                     (fun d phase => Set_ constPhase (flattenPhase phase) d)
                     (Phases lifecycle)
                     (Set_ constName (VString (Name lifecycle))
                        (Set_ constDescription (VString (Description lifecycle))
                           (data s))))));
        world := world s |}).
Proof.
  unfold flattenLifecycle. unfold mbind, M_bind.
  unfold bind at 1. unfold modifyData at 1.
  unfold bind at 1. unfold modifyData at 1.
  unfold bind at 1. rewrite forEach_phase_run.
  reflexivity.
Qed.

(** X21.  The flattener always completes and makes no call.  It sets
    the identifier, the name and the description from the lifecycle and
    each of the two retention attributes to one block holding unit,
    quantity and keep-forever flag, and leaves every attribute other
    than these and [phase] as it was.  When no phase of the lifecycle
    carries a retention policy of its own (as in every lifecycle the
    builder makes), the [phase] attribute ends up as the flattening of
    the last phase alone, or untouched when the lifecycle has no
    phase. *)
Theorem flattenLifecycle_state (lifecycle : Lifecycle) (s : State Call R) :
  let out := flattenLifecycle lifecycle s in
  let d' := data out.2 in
  out.1 = Value _ tt /\ world out.2 = world s /\
  Id d' = GetID lifecycle /\
  Get d' constName = VString (Name lifecycle) /\
  Get d' constDescription = VString (Description lifecycle) /\
  Get d' constReleaseRetentionPolicy
    = flattenRetentionPeriod (ReleaseRetentionPolicy lifecycle) /\
  Get d' constTentacleRetentionPolicy
    = flattenRetentionPeriod (TentacleRetentionPolicy lifecycle) /\
  (forall r : RetentionPeriod, exists block,
      flattenRetentionPeriod r = VList [VMap block] /\
      index block constUnit = VString (Unit r) /\
      index block constQuantityToKeep = VInt32 (QuantityToKeep r) /\
      index block constShouldKeepForever = VBool (ShouldKeepForever r)) /\
  (Forall (fun p => PhaseReleaseRetentionPolicy p = None /\
                    PhaseTentacleRetentionPolicy p = None) (Phases lifecycle) ->
   Get d' constPhase
   = match last (Phases lifecycle) with
     | Some p => flattenPhase p
     | None => Get (data s) constPhase
     end) /\
  forall key,
    ~ In key [constDescription; constName; constPhase;
              constReleaseRetentionPolicy; constTentacleRetentionPolicy] ->
    Get d' key = Get (data s) key.
Proof.
  clear m NewLifecycle.
  intros out d'. subst out d'. rewrite flattenLifecycle_run. cbn [fst snd data world].
  split; [reflexivity|]. split; [reflexivity|]. split; [reflexivity|].
  rewrite !Get_SetId.
  split.
  { rewrite !Get_Set_ne by discriminate. rewrite fold_phase_other by discriminate.
    apply Get_Set_eq. }
  split.
  { rewrite !Get_Set_ne by discriminate. rewrite fold_phase_other by discriminate.
    rewrite Get_Set_ne by discriminate. apply Get_Set_eq. }
  split.
  { rewrite Get_Set_ne by discriminate. apply Get_Set_eq. }
  split; [apply Get_Set_eq|].
  split.
  { intros r. eexists. split; [reflexivity|].
    unfold index. split; [|split].
    - rewrite !lookup_insert_ne by discriminate. rewrite lookup_insert_eq. reflexivity.
    - rewrite lookup_insert_ne by discriminate. rewrite lookup_insert_eq. reflexivity.
    - rewrite lookup_insert_eq. reflexivity. }
  split.
  { intros _. rewrite !Get_Set_ne by discriminate. rewrite fold_phase_last.
    destruct (last (Phases lifecycle)); [reflexivity|].
    rewrite !Get_Set_ne by discriminate. reflexivity. }
  intros key Hkey.
  assert (Hne : forall k, In k [constDescription; constName; constPhase;
                                constReleaseRetentionPolicy;
                                constTentacleRetentionPolicy] -> k <> key).
  { intros k Hk <-. contradiction. }
  rewrite Get_SetId, !Get_Set_ne by (apply Hne; cbn; tauto).
  rewrite fold_phase_other by (apply Hne; cbn; tauto).
  rewrite !Get_Set_ne by (apply Hne; cbn; tauto). reflexivity.
Qed.

(** X22.  Create, Read and Update of a lifecycle invoke at most one
    client method, and whenever they do not succeed (the builder
    panicked or the API returned an error) the resource data is left as
    it was; in particular a failed Read keeps the record in state. *)
Theorem lifecycle_failure_paths (d : ResourceData) (w : World Call R) :
  let ok := fun res : option Diagnostics * ResourceData * World Call R =>
    (res.1.1 <> Some [] -> res.1.2 = d) /\
    exists l, calls res.2 = (calls w ++ l)%list /\ (List.length l <= 1)%nat in
  ok (run (resourceLifecycleCreate m NewLifecycle) d w) /\
  ok (run (resourceLifecycleRead m) d w) /\
  ok (run (resourceLifecycleUpdate m NewLifecycle) d w).
Proof.
  intros ok. subst ok.
  unfold resourceLifecycleCreate, resourceLifecycleRead, resourceLifecycleUpdate.
  unfold_run. cbn beta.
  split; [|split].
  - destruct (buildLifecycleResource NewLifecycle d) as [l|]; unfold_run.
    + destruct (Lifecycles_Add m l (remote w)) as [[created|e] r]; unfold_run.
      * rewrite flattenLifecycle_run. cbn.
        split; [intros H; destruct (H eq_refl)|].
        eexists [_]. split; [reflexivity | cbn; lia].
      * cbn. split; [reflexivity|]. eexists [_]. split; [reflexivity | cbn; lia].
    + cbn. split; [reflexivity|]. exists []. rewrite app_nil_r. split; [reflexivity|cbn; lia].
  - destruct (Lifecycles_GetByID m (Id d) (remote w)) as [[l|e] r]; unfold_run.
    + rewrite flattenLifecycle_run. cbn.
      split; [intros H; destruct (H eq_refl)|].
      eexists [_]. split; [reflexivity | cbn; lia].
    + cbn. split; [reflexivity|]. eexists [_]. split; [reflexivity | cbn; lia].
  - destruct (buildLifecycleResource NewLifecycle d) as [l|]; unfold_run.
    + destruct (Lifecycles_Update m _ (remote w)) as [[updated|e] r]; unfold_run.
      * rewrite flattenLifecycle_run. cbn.
        split; [intros H; destruct (H eq_refl)|].
        eexists [_]. split; [reflexivity | cbn; lia].
      * cbn. split; [reflexivity|]. eexists [_]. split; [reflexivity | cbn; lia].
    + cbn. split; [reflexivity|]. exists []. rewrite app_nil_r. split; [reflexivity|cbn; lia].
Qed.

(** X23.  When the builder returns a lifecycle, Create submits it as
    built and Update submits it under the local identifier; when the
    API returns a lifecycle, the handler returns no diagnostic and the
    local identifier and name are those of the returned lifecycle. *)
Theorem lifecycle_create_update_success (d : ResourceData) (w : World Call R)
    (built : Lifecycle) :
  buildLifecycleResource NewLifecycle d = Some built ->
  (forall created r,
      Lifecycles_Add m built (remote w) = (Ok created, r) ->
      let res := run (resourceLifecycleCreate m NewLifecycle) d w in
      res.1.1 = Some [] /\
      Id res.1.2 = GetID created /\
      Get res.1.2 constName = VString (Name created) /\
      res.2 = {| remote := r; calls := (calls w ++ [LifecyclesAdd built])%list |})
  /\
  (forall updated r,
      Lifecycles_Update m (with_ID (Id d) built) (remote w) = (Ok updated, r) ->
      let res := run (resourceLifecycleUpdate m NewLifecycle) d w in
      res.1.1 = Some [] /\
      Id res.1.2 = GetID updated /\
      Get res.1.2 constName = VString (Name updated) /\
      res.2 = {| remote := r;
                 calls := (calls w ++ [LifecyclesUpdate (with_ID (Id d) built)])%list |}).
Proof.
  intros Hb. split; intros l r Hcall res; subst res;
    unfold resourceLifecycleCreate, resourceLifecycleUpdate; unfold_run;
    rewrite Hb; unfold_run; rewrite Hcall; unfold_run;
    rewrite flattenLifecycle_run; cbn [fst snd data world];
    (split; [reflexivity|]); (split; [reflexivity|]); (split; [|reflexivity]);
    rewrite Get_SetId, !Get_Set_ne by discriminate;
    rewrite fold_phase_other by discriminate; apply Get_Set_eq.
Qed.

End LifecyclePaths.

(* ===================================================================== *)
(** * Deployment process: where the diagnostics of Read come from        *)
(* ===================================================================== *)

Section DeploymentProcessReadDiagnostics.
Import Terraform Handler Shape DeploymentProcess.
Context {R : Type}.
Variable m : Client R.
Variable setDeploymentProcess :
  ResourceData -> DeploymentProcess -> ResourceData * option error.
Variable ProcessApiError :
  ResourceData -> error -> string -> Diagnostics * ResourceData.

(** X24.  The error of a failed process lookup, direct or by project
    and git ref, never becomes a diagnostic of Read.  Read returns no
    diagnostic, or the error of the flattener (with the data as the
    flattener left it), or, when the project lookup failed, the
    diagnostics and data the API-error filter makes of that error. *)
Theorem read_diagnostics (d : ResourceData) (w : World Call R) :
  let res := run (resourceDeploymentProcessRead m setDeploymentProcess
                    ProcessApiError) d w in
  res.1.1 = Some [] \/
  (exists p e,
      setDeploymentProcess d p = (res.1.2, Some e) /\
      res.1.1 = Some (FromErr e)) \/
  (exists err r r',
      Projects_GetByID m (GoRegexp.FindString reProjectID (Id d)) r = (Err err, r') /\
      res.1.1 = Some (ProcessApiError d err "project").1 /\
      res.1.2 = (ProcessApiError d err "project").2).
Proof.
  unfold_handlers. unfold_run.
  repeat case_response;
    repeat match goal with
      | |- context [setDeploymentProcess ?a ?b] =>
          destruct (setDeploymentProcess a b) as [? [?|]] eqn:?
      | |- context [ProcessApiError ?a ?b ?c] =>
          destruct (ProcessApiError a b c) as [? ?] eqn:Hpae
      end;
    unfold_run;
    first [ left; reflexivity
          | right; left; do 2 eexists; split; [eassumption | reflexivity]
          | right; right; do 3 eexists; (split; [eassumption|]);
            rewrite Hpae; split; reflexivity ].
Qed.

End DeploymentProcessReadDiagnostics.

(* ===================================================================== *)
(** * The further properties at work on the concrete remotes             *)
(* ===================================================================== *)

Section FurtherWitnesses.
Import Terraform Handler Shape.

(** The identifier of branch [main] of [Projects-123]. *)
Lemma projectID_of_compositeID_witness :
  GoRegexp.FindString DeploymentProcess.reProjectID
    (compositeID ("Projects-" ++ "123") "main") = "Projects-" ++ "123".
Proof.
  apply (projectID_of_compositeID "123" "main"); [discriminate | reflexivity].
Defined.

(** Update of the process of the database project [Projects-7]. *)
Lemma update_direct_witness :
  let d := Scenario.DP.config "deploymentprocess-Projects-7" "Projects-7" EmptyString in
  let current := Scenario.DP.stored "deploymentprocess-Projects-7" EmptyString
                   "Projects-7" 3 in
  let res := run (DeploymentProcess.resourceDeploymentProcessUpdate
                    Scenario.DP.client Scenario.DP.expand Scenario.DP.set)
               d Scenario.DP.world in
  last (calls res.2)
  = Some (DeploymentProcess.DeploymentProcessesUpdate
            (DeploymentProcess.with_Version 3
               (DeploymentProcess.with_Links (DeploymentProcess.Links current)
                  (Scenario.DP.expand d)))) /\
  DeploymentProcess.ID (Scenario.DP.expand d) = "deploymentprocess-Projects-7".
Proof.
  intros d current res.
  destruct (update_direct Scenario.DP.client Scenario.DP.expand Scenario.DP.set
              d Scenario.DP.world current Scenario.DP.server eq_refl)
    as (HID & _ & _ & Hlast & _).
  split.
  - exact Hlast.
  - rewrite <- HID. reflexivity.
Defined.

(** Update towards a branch the server does not have. *)
Lemma update_fallback_lookup_failure_witness :
  let d := Scenario.DP.config "deploymentprocess-Projects-123-main"
             "Projects-123" "feature" in
  run (DeploymentProcess.resourceDeploymentProcessUpdate
         Scenario.DP.client Scenario.DP.expand Scenario.DP.set)
    d Scenario.DP.world
  = (Some (FromErr "not found"),
     SetId "deploymentprocess-Projects-123-feature" d,
     {| remote := Scenario.DP.server;
        calls :=
          [DeploymentProcess.DeploymentProcessesGetByID
             "deploymentprocess-Projects-123-main";
           DeploymentProcess.ProjectsGetByID "Projects-123";
           DeploymentProcess.DeploymentProcessesGet Scenario.DP.project123
             "feature"] |}).
Proof.
  intros d.
  exact (update_fallback_lookup_failure Scenario.DP.client Scenario.DP.expand
           Scenario.DP.set d Scenario.DP.world "not found" "not found"
           Scenario.DP.project123 Scenario.DP.server Scenario.DP.server
           Scenario.DP.server eq_refl eq_refl eq_refl).
Defined.

(** Create on branch [main] of [Projects-123]. *)
Lemma create_payload_witness :
  let d := Scenario.DP.config EmptyString "Projects-123" "main" in
  let res := run (DeploymentProcess.resourceDeploymentProcessCreate
                    Scenario.DP.client Scenario.DP.expand Scenario.DP.set)
               d Scenario.DP.world in
  res.1.1 = Some [] /\
  exists before lookup payload,
    calls res.2
    = (before ++ [DeploymentProcess.ProjectsGetByID "Projects-123";
                  lookup;
                  DeploymentProcess.DeploymentProcessesUpdate payload])%list.
Proof.
  intros d res. split; [reflexivity|].
  destruct (create_payload Scenario.DP.client Scenario.DP.expand Scenario.DP.set
              d res.1.2 Scenario.DP.world res.2 eq_refl)
    as (project & current & created & r & r0 & r1 & before & _ & _ & _ & _ & _
        & _ & _ & _ & _ & Hcalls).
  exists before. do 2 eexists. exact Hcalls.
Defined.

(** The same Create, through its diagnostics. *)
Lemma create_failure_paths_witness :
  let d := Scenario.DP.config EmptyString "Projects-123" "main" in
  let res := run (DeploymentProcess.resourceDeploymentProcessCreate
                    Scenario.DP.client Scenario.DP.expand Scenario.DP.set)
               d Scenario.DP.world in
  res.1.1 = Some [] /\
  exists payload,
    last (calls res.2) = Some (DeploymentProcess.DeploymentProcessesUpdate payload).
Proof.
  intros d res. split; [reflexivity|].
  destruct (create_failure_paths Scenario.DP.client Scenario.DP.expand
              Scenario.DP.set d res.1.2 Scenario.DP.world res.2 [] eq_refl)
    as [(e & He & _) | (payload & created & r & r' & _ & Hlast & _)].
  - discriminate He.
  - exists payload. exact Hlast.
Defined.


(** A trigger configuration with permitted values only. *)
Lemma build_trigger_valid_witness :
  exists t,
    Trigger.buildProjectDeploymentTargetTriggerResource
      (Scenario.Trig.config EmptyString ["Machine"] ["MachineAdded"])
    = Some (Ok t).
Proof.
  apply (proj1 (build_trigger_valid
                  (Scenario.Trig.config EmptyString ["Machine"] ["MachineAdded"])
                  "redeploy" "Projects-1" true ["Machine"] ["MachineAdded"] [] []
                  eq_refl eq_refl eq_refl eq_refl eq_refl eq_refl eq_refl)).
  split; intros x [<-|[]]; cbn; tauto.
Defined.

(** Two offending event groups and an offending category: the first
    group is the one reported. *)
Lemma build_trigger_first_invalid_group_witness :
  Trigger.buildProjectDeploymentTargetTriggerResource
    (Scenario.Trig.config EmptyString ["Machine"; "Bad1"; "Bad2"] ["BadCategory"])
  = Some (Err "Invalid value for event_groups. Bad1 not in [Machine MachineCritical MachineAvailableForDeployment MachineUnavailableForDeployment MachineHealthChanged]").
Proof.
  apply (build_trigger_first_invalid_group
           (Scenario.Trig.config EmptyString ["Machine"; "Bad1"; "Bad2"]
              ["BadCategory"])
           "redeploy" "Projects-1" true ["Machine"] ["Bad2"] "Bad1"
           eq_refl eq_refl eq_refl eq_refl).
  - intros x [<-|[]]. cbn. tauto.
  - intros H. repeat (destruct H as [H|H]; [discriminate H|]). exact H.
Defined.

(** Create of a trigger on an empty server. *)
Lemma trigger_create_success_witness :
  let d := Scenario.Trig.config EmptyString ["Machine"] ["MachineAdded"] in
  (run (Trigger.resourceProjectDeploymentTargetTriggerCreate
          Scenario.Trig.client Scenario.Trig.isEmpty) d (Scenario.Trig.world ∅)).1
  = (Some [], SetId "ProjectTriggers-1" d).
Proof.
  intros d.
  rewrite (trigger_create_success Scenario.Trig.client Scenario.Trig.isEmpty
             d (Scenario.Trig.world ∅) "redeploy" "Projects-1" true
             ["Machine"] ["MachineAdded"] [] [] _ _
             eq_refl eq_refl eq_refl eq_refl eq_refl eq_refl eq_refl
             ltac:(intros x [<-|[]]; cbn; tauto)
             ltac:(intros x [<-|[]]; cbn; tauto)
             eq_refl).
  reflexivity.
Defined.

(** Update of the trigger the server holds. *)
Lemma trigger_update_success_witness :
  let d := Scenario.Trig.config "ProjectTriggers-1" ["Machine"] ["MachineAdded"] in
  let w := Scenario.Trig.world {["ProjectTriggers-1" := Scenario.Trig.existing]} in
  (run (Trigger.resourceProjectDeploymentTargetTriggerUpdate Scenario.Trig.client)
     d w).1
  = (Some [], SetId "ProjectTriggers-1" d).
Proof.
  intros d w.
  rewrite (trigger_update_success Scenario.Trig.client
             d w "redeploy" "Projects-1" true
             ["Machine"] ["MachineAdded"] [] [] _ _
             eq_refl eq_refl eq_refl eq_refl eq_refl eq_refl eq_refl
             ltac:(intros x [<-|[]]; cbn; tauto)
             ltac:(intros x [<-|[]]; cbn; tauto)
             eq_refl).
  reflexivity.
Defined.

(** Read of the trigger the server holds. *)
Lemma trigger_read_found_witness :
  let d := Scenario.Trig.config "ProjectTriggers-1" ["Machine"] ["MachineAdded"] in
  let w := Scenario.Trig.world {["ProjectTriggers-1" := Scenario.Trig.existing]} in
  let res := run (Trigger.resourceProjectDeploymentTargetTriggerRead
                    Scenario.Trig.client) d w in
  Id res.1.2 = "ProjectTriggers-1" /\
  Get res.1.2 "event_groups" = VStrings [] /\
  Get res.1.2 "project_id" = VString "Projects-1".
Proof.
  intros d w res.
  destruct (trigger_read_found Scenario.Trig.client d w Scenario.Trig.existing
              (remote w) eq_refl)
    as (_ & HId & _ & Hgroups & _ & _ & _ & _ & Hproject & _).
  split; [exact HId|]. split; [exact Hgroups | exact Hproject].
Defined.

(** Read of a trigger stored as the builder made it. *)
Lemma trigger_build_read_roundtrip_witness :
  let d := Scenario.Trig.config "ProjectTriggers-1" ["Machine"] ["MachineAdded"] in
  let t :=
    {| Trigger.ID := EmptyString; Trigger.Name := "redeploy";
       Trigger.ProjectID := "Projects-1";
       Trigger.Action :=
         {| Trigger.ShouldRedeployWhenMachineHasBeenDeployedTo := true |};
       Trigger.Filter :=
         {| Trigger.EnvironmentIDs := []; Trigger.EventCategories := ["MachineAdded"];
            Trigger.EventGroups := ["Machine"]; Trigger.Roles := [] |} |} in
  let w := Scenario.Trig.world
             {["ProjectTriggers-1" := Trigger.with_ID "ProjectTriggers-1" t]} in
  let d' := (run (Trigger.resourceProjectDeploymentTargetTriggerRead
                    Scenario.Trig.client) d w).1.2 in
  Util.getSliceFromTerraformTypeList (Get d' "event_groups") = ["Machine"] /\
  Get d' "name" = VString "redeploy".
Proof.
  intros d t w d'.
  destruct (trigger_build_read_roundtrip Scenario.Trig.client d w
              "redeploy" "Projects-1" true ["Machine"] ["MachineAdded"] [] []
              t "ProjectTriggers-1" (remote w)
              eq_refl eq_refl eq_refl eq_refl eq_refl eq_refl eq_refl
              eq_refl eq_refl)
    as (Hname & _ & _ & Hlists).
  split.
  - exact (Hlists "event_groups" (or_introl eq_refl)).
  - exact Hname.
Defined.

(** The lifecycle configuration has one release block and no tentacle
    block. *)
Lemma build_lifecycle_retention_absent_witness :
  exists built,
    Lifecycle.buildLifecycleResource Scenario.LC.newLifecycle Scenario.LC.config
    = Some built /\
    Lifecycle.TentacleRetentionPolicy built = Scenario.LC.days.
Proof.
  eexists. split; [vm_compute; reflexivity|].
  refine (proj2 (build_lifecycle_retention_absent Scenario.LC.newLifecycle
                   Scenario.LC.config "Standard" _
                   [Scenario.LC.tfRetention 5 true "Items"] []
                   eq_refl eq_refl eq_refl eq_refl) _).
  discriminate.
Defined.

Lemma getRetentionPeriod_one_block_witness :
  exists r,
    Lifecycle.getRetentionPeriod Scenario.LC.config
      Lifecycle.constReleaseRetentionPolicy = Some (Some r) /\
    Unit r = "Items" /\ QuantityToKeep r = 5%Z.
Proof.
  destruct (getRetentionPeriod_one_block Scenario.LC.config
              Lifecycle.constReleaseRetentionPolicy
              (Scenario.attrs [(Lifecycle.constQuantityToKeep, VInt 5);
                               (Lifecycle.constShouldKeepForever, VBool true);
                               (Lifecycle.constUnit, VString "Items")])
              "Items" 5 eq_refl eq_refl eq_refl)
    as (r & Hr & Hunit & _ & _ & Hq).
  exists r. split; [exact Hr|]. split; [exact Hunit|]. apply Hq. lia.
Defined.

Lemma build_lifecycle_phases_witness :
  exists built ps,
    Lifecycle.buildLifecycleResource Scenario.LC.newLifecycle Scenario.LC.config
    = Some built /\
    Lifecycle.Phases built = ps /\ List.length ps = 2%nat.
Proof.
  eexists. 
  destruct (build_lifecycle_phases Scenario.LC.newLifecycle Scenario.LC.config
              "Standard"
              [Scenario.LC.tfPhase "Test" ["Environments-1"];
               Scenario.LC.tfPhase "Production" ["Environments-2"]]
              _ eq_refl eq_refl eq_refl)
    as (ps & Hphases & _ & Hlen & _).
  exists ps. split; [reflexivity|]. split; [exact Hphases | exact Hlen].
Defined.

(** Create of the lifecycle on an empty server. *)
Lemma lifecycle_create_update_success_witness :
  exists built,
    Lifecycle.buildLifecycleResource Scenario.LC.newLifecycle Scenario.LC.config
    = Some built /\
    Id (run (Lifecycle.resourceLifecycleCreate Scenario.LC.client
               Scenario.LC.newLifecycle)
          Scenario.LC.config (Scenario.LC.world ∅)).1.2
    = "Lifecycles-1".
Proof.
  eexists. split; [vm_compute; reflexivity|].
  destruct (lifecycle_create_update_success Scenario.LC.client
              Scenario.LC.newLifecycle Scenario.LC.config (Scenario.LC.world ∅)
              _ eq_refl) as [Hcreate _].
  destruct (Hcreate _ _ eq_refl) as (_ & HId & _).
  exact HId.
Defined.

(** Flattening of a lifecycle with the phases Test and Production, as
    the builder makes them. *)
Lemma flattenLifecycle_state_witness :
  let lifecycle :=
    Lifecycle.with_Phases
      [Scenario.LC.phase "Test" ["Environments-1"];
       Scenario.LC.phase "Production" ["Environments-2"]]
      (Lifecycle.with_ID "Lifecycles-1" (Scenario.LC.newLifecycle "Standard")) in
  let s := {| data := Scenario.LC.config; world := Scenario.LC.world ∅ |} in
  let d' := data (Lifecycle.flattenLifecycle lifecycle s).2 in
  Id d' = "Lifecycles-1" /\
  Get d' Lifecycle.constPhase
  = Lifecycle.flattenPhase (Scenario.LC.phase "Production" ["Environments-2"]).
Proof.
  intros lifecycle s d'.
  destruct (flattenLifecycle_state lifecycle s)
    as (_ & _ & HId & _ & _ & _ & _ & _ & Hphase & _).
  split; [exact HId|].
  apply Hphase. repeat constructor.
Defined.

End FurtherWitnesses.
